(** * pymaker.auctions: the Flipper, Flapper and Flopper clients

    A shallow embedding of [pymaker/auctions.py].  The three classes are thin
    clients over a web3 contract binding: the read methods perform one
    contract call and convert the reply, the mutating methods check the
    types of their arguments and build a [Transact] object.

    Python values are dynamically typed, so method arguments and contract
    replies are values of [PyVal]; an [assert(isinstance(...))] of the source
    is a check that may raise [AssertionError].  Methods run in a small
    state-and-exception monad [M] whose state holds the client object and
    the list of contract calls made so far. *)

From Stdlib Require Import ZArith String List Bool Lia.
Import ListNotations.
Local Open Scope Z_scope.
Local Open Scope string_scope.

(** ** Values *)

(** [Wad] and [Address] come from [pymaker.numeric] and [pymaker]; the
    clients only use their constructors and the attributes [value] and
    [address]. *)
Record Wad := mkWad { value : Z }.
Record Address := mkAddress { address : string }.

#[warnings="-register-all"] Inductive PyVal :=
| VNone
| VInt (n : Z)
| VStr (s : string)
| VWad (w : Wad)
| VAddress (a : Address)
| VList (l : list PyVal).

(** ** Exceptions *)

(** The error names of the specification's validation tier.  No [raise]
    and no [assert] of the source mentions any of them. *)
Inductive ValidationError :=
| AuctionNotActive | AuctionStillActive | BidTooLow | LotNotLower
| LotMismatch | BidMismatch | InvalidParameters | NotFoundError.

Inductive Exn :=
| AssertionError              (* a failed [assert] *)
| TypeError                   (* wrong number of arguments, bad subscript *)
| IndexError                  (* [array[i]] out of range *)
| AttributeError              (* the class has no such method *)
| External (why : string)     (* raised inside web3 or inside a constructor
                                 of [Wad], [Address] or [int] *)
| Validation (e : ValidationError).

Inductive Res (A : Type) :=
| Ok (a : A)
| Raise (e : Exn).
Arguments Ok {A} a.
Arguments Raise {A} e.

(** ** The contract binding and the client object *)

(** What a collaborator outside this module answers: a value, or a failure
    of its own. *)
Inductive Reply (A : Type) :=
| Returned (a : A)
| Failed (why : string).
Arguments Returned {A} a.
Arguments Failed {A} why.

(** [self._contract.call().f(args)]: the reply of the bound contract to a
    call of its function [f]. *)
Definition ContractBinding := string -> list PyVal -> Reply PyVal.

(** [Web3(HTTPProvider(uri))], as [deployment.py] builds it. *)
Variant Web3 := HTTPProvider (uri : string).

(** The value of [Contract._load_abi(__name__, path)]. *)
Variant Abi := load_abi (module_name path : string).

Variant Class := Flipper_class | Flapper_class | Flopper_class.

(** The class attribute [abi] of each class. *)
Definition class_abi (c : Class) : Abi :=
  match c with
  | Flipper_class => load_abi "pymaker.auctions" "abi/Flipper.abi"
  | Flapper_class => load_abi "pymaker.auctions" "abi/Flapper.abi"
  | Flopper_class => load_abi "pymaker.auctions" "abi/Flopper.abi"
  end.

(** The instance attributes that each [__init__] sets, with the class of the
    object. *)
Module Contract.
Record t := mk {
  klass : Class;
  web3 : Web3;
  address : Address;
  _contract : ContractBinding
}.
(** [self.abi] resolves to the attribute of the object's class. *)
Definition abi (self : t) : Abi := class_abi (klass self).
End Contract.

(** Modelled from the spec: the class [Transact] of [pymaker] is not among
    the sources.  The spec calls it PendingTransaction, "an unsubmitted,
    fully-parameterized request object returned by every mutating
    operation".  The fields are the constructor's arguments in the order
    the clients pass them. *)
Module Transact.
Record t := new {
  origin : Contract.t;
  web3 : Web3;
  abi : Abi;
  address : Address;
  contract : ContractBinding;
  function_name : string;
  parameters : list PyVal
}.
End Transact.

(** The constructors [Wad(x)] and [Address(x)] and the conversion [int(x)]
    of a value that is not already an [int] are defined outside the
    sources; the clients are parametric in them. *)
Class Collaborators := {
  Wad_new : PyVal -> Reply Wad;
  Address_new : PyVal -> Reply Address;
  int_other : PyVal -> Reply Z
}.

(** ** The monad of methods *)

Definition EthCall : Type := string * list PyVal.

Record World := mkWorld {
  this : Contract.t;         (* the object [self] refers to *)
  calls : list EthCall       (* contract calls made so far, oldest first *)
}.

Definition M (A : Type) : Type := World -> Res A * World.

Definition ret {A} (a : A) : M A := fun w => (Ok a, w).
Definition raise {A} (e : Exn) : M A := fun w => (Raise e, w).
Definition bind {A B} (m : M A) (k : A -> M B) : M B :=
  fun w => match m w with
           | (Ok a, w') => k a w'
           | (Raise e, w') => (Raise e, w')
           end.

Notation "x <- m ;; k" := (bind m (fun x => k))
  (at level 61, m at next level, right associativity).

Definition get_self : M Contract.t := fun w => (Ok (this w), w).

Definition lift {A} (r : Reply A) : M A :=
  match r with
  | Returned a => ret a
  | Failed why => raise (External why)
  end.

(** [self._contract.call().f(args...)] *)
Definition call (f : string) (args : list PyVal) : M PyVal :=
  fun w => let w' := mkWorld (this w) (calls w ++ [(f, args)]) in
           lift (Contract._contract (this w) f args) w'.

(** [assert(isinstance(v, int))] and its siblings; the checked value comes
    back at its type. *)
Definition assert_int (v : PyVal) : M Z :=
  match v with VInt n => ret n | _ => raise AssertionError end.
Definition assert_Wad (v : PyVal) : M Wad :=
  match v with VWad w => ret w | _ => raise AssertionError end.
Definition assert_Address (v : PyVal) : M Address :=
  match v with VAddress a => ret a | _ => raise AssertionError end.

(** [assert(callable(f))]: no value of [PyVal] is callable. *)
Definition assert_callable (v : PyVal) : M unit := raise AssertionError.

(** [array[i]] for a constant index [i >= 0] *)
Definition getitem (array : PyVal) (i : nat) : Res PyVal :=
  match array with
  | VList l => match nth_error l i with
               | Some v => Ok v
               | None => Raise IndexError
               end
  | VStr s => match String.get i s with
              | Some c => Ok (VStr (String c EmptyString))
              | None => Raise IndexError
              end
  | _ => Raise TypeError
  end.

Definition subscript (array : PyVal) (i : nat) : M PyVal :=
  fun w => (getitem array i, w).

Section Conversions.
Context {collab : Collaborators}.

(** [Wad(v)], [Address(v)], [int(v)] *)
Definition Wad_ (v : PyVal) : M Wad := lift (Wad_new v).
Definition Address_ (v : PyVal) : M Address := lift (Address_new v).
Definition to_int (v : PyVal) : Reply Z :=
  match v with
  | VInt n => Returned n
  | _ => int_other v
  end.
Definition int_ (v : PyVal) : M Z := lift (to_int v).
End Conversions.

(** [Transact(self, self.web3, self.abi, self.address, self._contract,
    name, params)], the expression every mutating method returns. *)
Definition transact (name : string) (params : list PyVal) : M Transact.t :=
  self <- get_self ;;
  ret (Transact.new self (Contract.web3 self) (Contract.abi self)
         (Contract.address self) (Contract._contract self) name params).

(** ** class Flipper *)

Module Flipper.

Section Reads.
Context {collab : Collaborators}.

Definition era : M PyVal := call "era" [].

Definition pie : M Address :=
  r <- call "pie" [] ;; Address_ r.

Definition gem : M Address :=
  r <- call "gem" [] ;; Address_ r.

Definition beg : M Wad :=
  r <- call "beg" [] ;; Wad_ r.

Definition ttl : M Z :=
  r <- call "ttl" [] ;; int_ r.

Definition tau : M Z :=
  r <- call "tau" [] ;; int_ r.

End Reads.

Definition kick (lad gal tab lot bid : PyVal) : M Transact.t :=
  lad <- assert_Address lad ;;
  gal <- assert_Address gal ;;
  tab <- assert_int tab ;;
  lot <- assert_Wad lot ;;
  bid <- assert_Wad bid ;;
  transact "kick" [VStr (address lad); VStr (address gal); VInt tab;
                   VInt (value lot); VInt (value bid)].

Definition tend (id lot bid : PyVal) : M Transact.t :=
  id <- assert_int id ;;
  lot <- assert_Wad lot ;;
  bid <- assert_Wad bid ;;
  transact "tend" [VInt id; VInt (value lot); VInt (value bid)].

Definition dent (id lot bid : PyVal) : M Transact.t :=
  id <- assert_int id ;;
  lot <- assert_Wad lot ;;
  bid <- assert_Wad bid ;;
  transact "dent" [VInt id; VInt (value lot); VInt (value bid)].

Definition deal (id : PyVal) : M Transact.t :=
  id <- assert_int id ;;
  transact "deal" [VInt id].

End Flipper.

(** ** class Flapper *)

Module Flapper.

Record Bid := mkBid {
  bid : Wad;
  lot : Wad;
  guy : Address;
  tic : Z;
  end_ : Z
}.

(** [Bid.__init__] *)
Definition Bid__init__ (bid lot guy tic end_ : PyVal) : M Bid :=
  bid <- assert_Wad bid ;;
  lot <- assert_Wad lot ;;
  guy <- assert_Address guy ;;
  tic <- assert_int tic ;;
  end_ <- assert_int end_ ;;
  ret (mkBid bid lot guy tic end_).

Section Reads.
Context {collab : Collaborators}.

Definition era : M PyVal := call "era" [].

Definition pie : M Address :=
  r <- call "pie" [] ;; Address_ r.

Definition gem : M Address :=
  r <- call "gem" [] ;; Address_ r.

Definition beg : M Wad :=
  r <- call "beg" [] ;; Wad_ r.

Definition ttl : M Z :=
  r <- call "ttl" [] ;; int_ r.

Definition tau : M Z :=
  r <- call "tau" [] ;; int_ r.

Definition kicks : M Z :=
  r <- call "kicks" [] ;; int_ r.

(** The [return] expression of [bids]: the keyword arguments are evaluated
    left to right, then [Bid.__init__] runs. *)
Definition decode (array : PyVal) : M Bid :=
  a0 <- subscript array 0 ;; bid <- Wad_ a0 ;;
  a1 <- subscript array 1 ;; lot <- Wad_ a1 ;;
  a2 <- subscript array 2 ;; guy <- Address_ a2 ;;
  a3 <- subscript array 3 ;; tic <- int_ a3 ;;
  a4 <- subscript array 4 ;; end_ <- int_ a4 ;;
  Bid__init__ (VWad bid) (VWad lot) (VAddress guy) (VInt tic) (VInt end_).

Definition bids (id : PyVal) : M Bid :=
  id <- assert_int id ;;
  array <- call "bids" [VInt id] ;;
  decode array.

End Reads.

(** [approve] asserts that its argument is callable before anything
    else. *)
Definition approve (approval_function : PyVal) : M PyVal :=
  _ <- assert_callable approval_function ;;
  ret VNone.

Definition kick (gal lot bid : PyVal) : M Transact.t :=
  gal <- assert_Address gal ;;
  lot <- assert_Wad lot ;;
  bid <- assert_Wad bid ;;
  transact "kick" [VStr (address gal); VInt (value lot); VInt (value bid)].

Definition tend (id lot bid : PyVal) : M Transact.t :=
  id <- assert_int id ;;
  lot <- assert_Wad lot ;;
  bid <- assert_Wad bid ;;
  transact "tend" [VInt id; VInt (value lot); VInt (value bid)].

Definition deal (id : PyVal) : M Transact.t :=
  id <- assert_int id ;;
  transact "deal" [VInt id].

End Flapper.

(** ** class Flopper *)

Module Flopper.

Record Bid := mkBid {
  bid : Wad;
  lot : Wad;
  guy : Address;
  tic : Z;
  end_ : Z
}.

(** [Bid.__init__] *)
Definition Bid__init__ (bid lot guy tic end_ : PyVal) : M Bid :=
  bid <- assert_Wad bid ;;
  lot <- assert_Wad lot ;;
  guy <- assert_Address guy ;;
  tic <- assert_int tic ;;
  end_ <- assert_int end_ ;;
  ret (mkBid bid lot guy tic end_).

Section Reads.
Context {collab : Collaborators}.

Definition era : M PyVal := call "era" [].

Definition pie : M Address :=
  r <- call "pie" [] ;; Address_ r.

Definition gem : M Address :=
  r <- call "gem" [] ;; Address_ r.

Definition beg : M Wad :=
  r <- call "beg" [] ;; Wad_ r.

Definition ttl : M Z :=
  r <- call "ttl" [] ;; int_ r.

Definition tau : M Z :=
  r <- call "tau" [] ;; int_ r.

Definition kicks : M Z :=
  r <- call "kicks" [] ;; int_ r.

(** The [return] expression of [bids]: the keyword arguments are evaluated
    left to right, then [Bid.__init__] runs. *)
Definition decode (array : PyVal) : M Bid :=
  a0 <- subscript array 0 ;; bid <- Wad_ a0 ;;
  a1 <- subscript array 1 ;; lot <- Wad_ a1 ;;
  a2 <- subscript array 2 ;; guy <- Address_ a2 ;;
  a3 <- subscript array 3 ;; tic <- int_ a3 ;;
  a4 <- subscript array 4 ;; end_ <- int_ a4 ;;
  Bid__init__ (VWad bid) (VWad lot) (VAddress guy) (VInt tic) (VInt end_).

Definition bids (id : PyVal) : M Bid :=
  id <- assert_int id ;;
  array <- call "bids" [VInt id] ;;
  decode array.

End Reads.

(** [approve] asserts that its argument is callable before anything
    else. *)
Definition approve (approval_function : PyVal) : M PyVal :=
  _ <- assert_callable approval_function ;;
  ret VNone.

Definition kick (gal lot bid : PyVal) : M Transact.t :=
  gal <- assert_Address gal ;;
  lot <- assert_Wad lot ;;
  bid <- assert_Wad bid ;;
  transact "kick" [VStr (address gal); VInt (value lot); VInt (value bid)].

Definition dent (id lot bid : PyVal) : M Transact.t :=
  id <- assert_int id ;;
  lot <- assert_Wad lot ;;
  bid <- assert_Wad bid ;;
  transact "dent" [VInt id; VInt (value lot); VInt (value bid)].

Definition deal (id : PyVal) : M Transact.t :=
  id <- assert_int id ;;
  transact "deal" [VInt id].

End Flopper.

(** ** Method call by name *)

(** What a method hands back. *)
Inductive Obj :=
| OVal (v : PyVal)
| OFlapperBid (b : Flapper.Bid)
| OFlopperBid (b : Flopper.Bid)
| OTransact (t : Transact.t).

Definition OInt (n : Z) : Obj := OVal (VInt n).
Definition OWad (w : Wad) : Obj := OVal (VWad w).
Definition OAddress (a : Address) : Obj := OVal (VAddress a).

Definition Method : Type := list PyVal -> M Obj.

(** Binding of the positional arguments; a wrong count is a [TypeError]. *)
Definition arity0 {A} (inj : A -> Obj) (m : M A) : Method :=
  fun args => match args with
              | [] => x <- m ;; ret (inj x)
              | _ => raise TypeError
              end.
Definition arity1 {A} (inj : A -> Obj) (m : PyVal -> M A) : Method :=
  fun args => match args with
              | [a] => x <- m a ;; ret (inj x)
              | _ => raise TypeError
              end.
Definition arity3 {A} (inj : A -> Obj) (m : PyVal -> PyVal -> PyVal -> M A)
  : Method :=
  fun args => match args with
              | [a; b; c] => x <- m a b c ;; ret (inj x)
              | _ => raise TypeError
              end.
Definition arity5 {A} (inj : A -> Obj)
  (m : PyVal -> PyVal -> PyVal -> PyVal -> PyVal -> M A) : Method :=
  fun args => match args with
              | [a; b; c; d; e] => x <- m a b c d e ;; ret (inj x)
              | _ => raise TypeError
              end.

Section Dispatch.
Context {collab : Collaborators}.

(** The methods of each class body, in declaration order.  The constructor,
    the static [deploy] and [__repr__] are left out: they rest on
    [Contract._get_contract], [Contract._deploy] and [Address.__str__]. *)
Definition Flipper_methods : list (string * Method) :=
  [ ("era", arity0 OVal Flipper.era);
    ("pie", arity0 OAddress Flipper.pie);
    ("gem", arity0 OAddress Flipper.gem);
    ("beg", arity0 OWad Flipper.beg);
    ("ttl", arity0 OInt Flipper.ttl);
    ("tau", arity0 OInt Flipper.tau);
    ("kick", arity5 OTransact Flipper.kick);
    ("tend", arity3 OTransact Flipper.tend);
    ("dent", arity3 OTransact Flipper.dent);
    ("deal", arity1 OTransact Flipper.deal) ].

Definition Flapper_methods : list (string * Method) :=
  [ ("approve", arity1 OVal Flapper.approve);
    ("era", arity0 OVal Flapper.era);
    ("pie", arity0 OAddress Flapper.pie);
    ("gem", arity0 OAddress Flapper.gem);
    ("beg", arity0 OWad Flapper.beg);
    ("ttl", arity0 OInt Flapper.ttl);
    ("tau", arity0 OInt Flapper.tau);
    ("kicks", arity0 OInt Flapper.kicks);
    ("bids", arity1 OFlapperBid Flapper.bids);
    ("kick", arity3 OTransact Flapper.kick);
    ("tend", arity3 OTransact Flapper.tend);
    ("deal", arity1 OTransact Flapper.deal) ].

Definition Flopper_methods : list (string * Method) :=
  [ ("approve", arity1 OVal Flopper.approve);
    ("era", arity0 OVal Flopper.era);
    ("pie", arity0 OAddress Flopper.pie);
    ("gem", arity0 OAddress Flopper.gem);
    ("beg", arity0 OWad Flopper.beg);
    ("ttl", arity0 OInt Flopper.ttl);
    ("tau", arity0 OInt Flopper.tau);
    ("kicks", arity0 OInt Flopper.kicks);
    ("bids", arity1 OFlopperBid Flopper.bids);
    ("kick", arity3 OTransact Flopper.kick);
    ("dent", arity3 OTransact Flopper.dent);
    ("deal", arity1 OTransact Flopper.deal) ].

Definition class_methods (c : Class) : list (string * Method) :=
  match c with
  | Flipper_class => Flipper_methods
  | Flapper_class => Flapper_methods
  | Flopper_class => Flopper_methods
  end.

Fixpoint getattr (name : string) (tbl : list (string * Method))
  : option Method :=
  match tbl with
  | [] => None
  | (n, m) :: rest => if String.eqb name n then Some m else getattr name rest
  end.

(** [self.name(args...)] *)
Definition invoke (name : string) (args : list PyVal) : M Obj :=
  self <- get_self ;;
  match getattr name (class_methods (Contract.klass self)) with
  | Some m => m args
  | None => raise AttributeError
  end.

End Dispatch.

(** The names through which the source builds a [Transact]. *)
Definition mutating (name : string) : bool :=
  existsb (String.eqb name) ["kick"; "tend"; "dent"; "deal"].

(** Whether a class defines a method of that name. *)
Definition exposes {collab : Collaborators} (c : Class) (name : string)
  : bool :=
  match getattr name (class_methods c) with
  | Some _ => true
  | None => false
  end.

(** ** What the assertions of the mutating methods demand *)

Variant PyType := T_int | T_Wad | T_Address.

Definition isinstance (v : PyVal) (t : PyType) : bool :=
  match v, t with
  | VInt _, T_int => true
  | VWad _, T_Wad => true
  | VAddress _, T_Address => true
  | _, _ => false
  end.

Fixpoint well_typed (args : list PyVal) (tys : list PyType) : bool :=
  match args, tys with
  | [], [] => true
  | a :: args', t :: tys' => isinstance a t && well_typed args' tys'
  | _, _ => false
  end.

(** The parameter types the [assert]s of each mutating method check, in
    parameter order; [None] when the class has no such method. *)
Definition signature (c : Class) (name : string) : option (list PyType) :=
  if String.eqb name "deal" then Some [T_int]
  else if String.eqb name "tend" then
    match c with
    | Flopper_class => None
    | _ => Some [T_int; T_Wad; T_Wad]
    end
  else if String.eqb name "dent" then
    match c with
    | Flapper_class => None
    | _ => Some [T_int; T_Wad; T_Wad]
    end
  else if String.eqb name "kick" then
    match c with
    | Flipper_class => Some [T_Address; T_Address; T_int; T_Wad; T_Wad]
    | _ => Some [T_Address; T_Wad; T_Wad]
    end
  else None.

(** How an argument enters the parameter list: [x.address] of an
    [Address], [x.value] of a [Wad], an [int] as it is. *)
Definition unwrap (v : PyVal) : PyVal :=
  match v with
  | VWad w => VInt (value w)
  | VAddress a => VStr (address a)
  | _ => v
  end.

(** The [Transact] that [self] builds for [name] and [params]. *)
Definition request (self : Contract.t) (name : string) (params : list PyVal)
  : Transact.t :=
  Transact.new self (Contract.web3 self) (Contract.abi self)
    (Contract.address self) (Contract._contract self) name params.

(** A method that only checks the count and the types of its arguments and
    then builds the request. *)
Definition shaping (name : string) (tys : list PyType) : Method :=
  fun args w =>
    if negb (Nat.eqb (length args) (length tys))
    then (Raise TypeError, w)
    else if well_typed args tys
         then (Ok (OTransact (request (this w) name (map unwrap args))), w)
         else (Raise AssertionError, w).

(** ** Concrete collaborators and ledgers, to run the clients *)

(** Modelled from the spec: the constructors of [Wad] and [Address] are not
    among the sources.  The spec takes a quantity to be a scaled integer
    and an address to be an identifier: [Wad(n)] keeps the integer [n],
    [Address(s)] keeps the string [s], anything else is refused. *)
Definition plain : Collaborators := {|
  Wad_new v := match v with
               | VInt n => Returned (mkWad n)
               | VWad w => Returned w
               | _ => Failed "Wad"
               end;
  Address_new v := match v with
                   | VStr s => Returned (mkAddress s)
                   | VAddress a => Returned a
                   | _ => Failed "Address"
                   end;
  int_other v := Failed "int"
|}.

Definition zero_address : string :=
  "0x0000000000000000000000000000000000000000".

Fixpoint assoc (id : Z) (records : list (Z * PyVal)) : option PyVal :=
  match records with
  | [] => None
  | (k, r) :: rest => if Z.eqb id k then Some r else assoc id rest
  end.

(** A ledger at time [now] on which [records] were created: the getter of
    the [bids] mapping answers an absent key with the all-zero tuple, as
    any mapping getter of the ledger does. *)
Definition ledger (now beg ttl tau : Z) (records : list (Z * PyVal))
  : ContractBinding :=
  fun f args =>
    if String.eqb f "era" then Returned (VInt now)
    else if String.eqb f "beg" then Returned (VInt beg)
    else if String.eqb f "ttl" then Returned (VInt ttl)
    else if String.eqb f "tau" then Returned (VInt tau)
    else if String.eqb f "kicks" then Returned (VInt (Z.of_nat (length records)))
    else if String.eqb f "bids" then
      match args with
      | [VInt id] =>
          match assoc id records with
          | Some r => Returned r
          | None => Returned (VList [VInt 0; VInt 0; VStr zero_address;
                                     VInt 0; VInt 0])
          end
      | _ => Failed "bids"
      end
    else Failed f.

Definition client (c : Class) (b : ContractBinding) : Contract.t :=
  Contract.mk c (HTTPProvider "http://localhost:8555")
    (mkAddress "0x1111100000999998888877777666665555544444") b.

Definition new_world (self : Contract.t) : World := mkWorld self [].

Definition alice : string := "0x8888877777666665555544444111110000099999".

(** A surplus auction whose record 1 carries a bid deadline (1400) and a
    hard deadline (4600) that both lie before the ledger time (5000). *)
Definition expired_surplus : World :=
  new_world (client Flapper_class
           (ledger 5000 50000000000000000 300 3600
              [(1, VList [VInt 105; VInt 50; VStr alice; VInt 1400;
                          VInt 4600])])).

(** A collateral auction created at time 1000 with bid 100 and lot 50 and
    no bid placed yet, read at ledger time 1100; the minimum increase is
    0.05 at the scale of 10^18. *)
Definition open_collateral : World :=
  new_world (client Flipper_class
           (ledger 1100 50000000000000000 300 3600
              [(1, VList [VInt 100; VInt 50; VStr alice; VInt 0;
                          VInt 4600])])).

(** Ledgers on which no auction was ever created. *)
Definition empty_surplus : World :=
  new_world (client Flapper_class (ledger 1000 50000000000000000 300 3600 [])).
Definition empty_debt : World :=
  new_world (client Flopper_class (ledger 1000 50000000000000000 300 3600 [])).

(** A debt auction with bid 100 and lot 40 whose bid deadline (1300) is
    still ahead of the ledger time (1100). *)
Definition running_debt : World :=
  new_world (client Flopper_class
               (ledger 1100 50000000000000000 300 3600
                  [(1, VList [VInt 100; VInt 40; VStr alice; VInt 1300;
                              VInt 4600])])).

(** The world after one more contract call. *)
Definition logged (w : World) (f : string) (args : list PyVal) : World :=
  mkWorld (this w) (calls w ++ [(f, args)]).

(** The five attributes of a record, whichever class it belongs to. *)
Definition Fields : Type := Wad * Wad * Address * Z * Z.
Definition Flapper_fields (b : Flapper.Bid) : Fields :=
  (Flapper.bid b, Flapper.lot b, Flapper.guy b, Flapper.tic b,
   Flapper.end_ b).
Definition Flopper_fields (b : Flopper.Bid) : Fields :=
  (Flopper.bid b, Flopper.lot b, Flopper.guy b, Flopper.tic b,
   Flopper.end_ b).

Definition view {A B} (f : A -> B) (r : Res A * World) : Res B * World :=
  match r with
  | (Ok a, w) => (Ok (f a), w)
  | (Raise e, w) => (Raise e, w)
  end.

(** [fs] holds the conversions of the items 0 to 4 of [array], in that
    order: bid, lot, guy, tic, end. *)
Definition positional {collab : Collaborators} (array : PyVal) (fs : Fields)
  : Prop :=
  let '(bid, lot, guy, tic, end_) := fs in
  exists a0 a1 a2 a3 a4,
    getitem array 0 = Ok a0 /\ Wad_new a0 = Returned bid /\
    getitem array 1 = Ok a1 /\ Wad_new a1 = Returned lot /\
    getitem array 2 = Ok a2 /\ Address_new a2 = Returned guy /\
    getitem array 3 = Ok a3 /\ to_int a3 = Returned tic /\
    getitem array 4 = Ok a4 /\ to_int a4 = Returned end_.

(** ** The rest of the module: construction and approval *)

(** The reads of the mechanism's parameters and counters. *)
Definition parameter_reads : list string :=
  ["era"; "pie"; "gem"; "beg"; "ttl"; "tau"; "kicks"].

(** A value that may sit in a parameter list handed to the contract: an
    [int] or a [str]. *)
Definition plain_value (v : PyVal) : bool :=
  match v with
  | VInt _ | VStr _ => true
  | _ => false
  end.

(** [Contract._get_contract(web3, abi, address)] of the base class, which
    is outside the sources. *)
Class Loader := {
  _get_contract : Web3 -> Abi -> Address -> Reply ContractBinding
}.

(** What a caller may pass where a [Web3] is expected. *)
Variant Handle :=
| AWeb3 (h : Web3)
| ANot (v : PyVal).

(** [__init__(self, web3, address)], the same text in the three classes;
    [c] is the class being instantiated. *)
Definition __init__ {loader : Loader} (c : Class) (web3 : Handle)
  (address : PyVal) : Res Contract.t :=
  match web3 with
  | ANot _ => Raise AssertionError
  | AWeb3 h =>
      match address with
      | VAddress a =>
          match _get_contract h (class_abi c) a with
          | Returned b => Ok (Contract.mk c h a b)
          | Failed why => Raise (External why)
          end
      | _ => Raise AssertionError
      end
  end.

(** [ERC20Token(web3=..., address=...)] of [pymaker.token], outside the
    sources: the two constructor arguments. *)
Record ERC20Token := mkERC20Token {
  token_web3 : Web3;
  token_address : Address
}.

(** A callable passed to [approve]: it receives the token, the address
    to approve and a name, and may do anything in the world. *)
Definition ApprovalFunction : Type :=
  ERC20Token -> Address -> string -> M PyVal.

Section Approval.
Context {collab : Collaborators}.

(** [Flapper.approve] on a callable argument: the arguments of the call
    are evaluated left to right, the result of the callable is dropped. *)
Definition Flapper_approve (approval_function : ApprovalFunction)
  : M PyVal :=
  self <- get_self ;;
  token <- Flapper.gem ;;
  self' <- get_self ;;
  _ <- approval_function (mkERC20Token (Contract.web3 self) token)
         (Contract.address self') "Flapper" ;;
  ret VNone.

(** [Flopper.approve] on a callable argument. *)
Definition Flopper_approve (approval_function : ApprovalFunction)
  : M PyVal :=
  self <- get_self ;;
  token <- Flopper.pie ;;
  self' <- get_self ;;
  _ <- approval_function (mkERC20Token (Contract.web3 self) token)
         (Contract.address self') "Flopper" ;;
  ret VNone.

End Approval.

(** An approval function that only records what it was given, as one more
    entry of the call log. *)
Definition recording : ApprovalFunction :=
  fun token spender name w =>
    (Ok VNone,
     mkWorld (this w)
       (calls w ++ [("approve", [VStr (address (token_address token));
                                 VStr (address spender); VStr name])])).


(** A loader that binds every address to the same ledger. *)
Definition loader_of (b : ContractBinding) : Loader :=
  {| _get_contract := fun _ _ _ => Returned b |}.

(** * pymaker.deployment: the snapshot discipline of [Deployment]

    [Deployment.reset] and [Deployment.time_travel_by] talk to the test
    node through [web3.manager.request_blocking].  The node is outside the
    sources: its state is a type [Chain] and its answer to a request a
    function of that state. *)

Module Deployment.

Section Node.
Variable Chain : Type.
(** The contract clients the object holds: [DSToken], [Tub], [Tap], ... *)
Variable Client : Type.
(** [web3.manager.request_blocking(method, params)] *)
Variable request_blocking :
  string -> list PyVal -> Chain -> Reply PyVal * Chain.

(** The attributes [Deployment.__init__] sets, in the order it sets them. *)
Record t := mk {
  snapshot_id : PyVal;
  web3 : Web3;
  our_address : Address;
  sai : Client;
  sin : Client;
  skr : Client;
  gem : Client;
  gov : Client;
  vox : Client;
  tub : Client;
  tap : Client;
  top : Client;
  otc : Client;
  etherdelta : Client
}.

(** [self.snapshot_id = id] *)
Definition set_snapshot_id (self : t) (id : PyVal) : t :=
  mk id (web3 self) (our_address self) (sai self) (sin self) (skr self)
    (gem self) (gov self) (vox self) (tub self) (tap self) (top self)
    (otc self) (etherdelta self).

Definition reset (self : t) (c : Chain) : Res unit * t * Chain :=
  match request_blocking "evm_revert" [snapshot_id self] c with
  | (Failed why, c1) => (Raise (External why), self, c1)
  | (Returned _, c1) =>
      match request_blocking "evm_snapshot" [] c1 with
      | (Failed why, c2) => (Raise (External why), self, c2)
      | (Returned id, c2) => (Ok tt, set_snapshot_id self id, c2)
      end
  end.

Definition time_travel_by (self : t) (seconds : PyVal) (c : Chain)
  : Res unit * t * Chain :=
  match seconds with
  | VInt n =>
      match request_blocking "evm_increaseTime" [VInt n] c with
      | (Failed why, c1) => (Raise (External why), self, c1)
      | (Returned _, c1) => (Ok tt, self, c1)
      end
  | _ => (Raise AssertionError, self, c)
  end.

(** A test session: time travels and resets, one after the other, up to
    the first exception. *)
Variant Step :=
| Travel (seconds : Z)
| Reset.

Definition step (s : Step) (self : t) (c : Chain) : Res unit * t * Chain :=
  match s with
  | Travel n => time_travel_by self (VInt n) c
  | Reset => reset self c
  end.

Fixpoint session (steps : list Step) (self : t) (c : Chain)
  : Res unit * t * Chain :=
  match steps with
  | [] => (Ok tt, self, c)
  | s :: rest =>
      match step s self c with
      | (Ok _, self', c') => session rest self' c'
      | (Raise e, self', c') => (Raise e, self', c')
      end
  end.

End Node.

(** A node to run sessions on: the ledger is reduced to its clock, and a
    snapshot keeps the clock under a fresh number. *)
Record Clock := mkClock {
  now : Z;
  snapshots : list (Z * Z);
  next_id : Z
}.

Fixpoint saved (id : Z) (snaps : list (Z * Z)) : option Z :=
  match snaps with
  | [] => None
  | (k, t0) :: rest => if Z.eqb id k then Some t0 else saved id rest
  end.

Definition clock_node (method : string) (params : list PyVal) (c : Clock)
  : Reply PyVal * Clock :=
  if String.eqb method "evm_snapshot" then
    (Returned (VInt (next_id c)),
     mkClock (now c) ((next_id c, now c) :: snapshots c) (next_id c + 1))
  else if String.eqb method "evm_revert" then
    match params with
    | [VInt id] =>
        match saved id (snapshots c) with
        | Some t0 =>
            (Returned (VInt 1),
             mkClock t0 (filter (fun s => Z.ltb (fst s) id) (snapshots c))
               (next_id c))
        | None => (Returned (VInt 0), c)
        end
    | _ => (Failed "evm_revert", c)
    end
  else if String.eqb method "evm_increaseTime" then
    match params with
    | [VInt n] => (Returned (VInt n), mkClock (now c + n) (snapshots c)
                                         (next_id c))
    | _ => (Failed "evm_increaseTime", c)
    end
  else (Failed method, c).

Definition clock_kept (c : Clock) (id : PyVal) : option Z :=
  match id with
  | VInt k => saved k (snapshots c)
  | _ => None
  end.

Definition clock_deployment : t unit :=
  mk unit (VInt 0) (HTTPProvider "http://localhost:8555")
    (mkAddress "0x1111100000999998888877777666665555544444")
    tt tt tt tt tt tt tt tt tt tt tt.

Definition clock_start : Clock := mkClock 1000 [(0, 1000)] 1.

End Deployment.

(** * Properties *)

(** ** The mutating methods are request shaping and nothing else *)

(** Splits the argument list by its length, then the arguments from the
    first on, until both sides compute. *)
Ltac by_arity args :=
  destruct args as [|? [|? [|? [|? [|? [|? ?]]]]]]; try reflexivity.
Ltac by_type :=
  repeat match reverse goal with
         | v : PyVal |- _ => destruct v; try reflexivity
         end.
Ltac shaping_proof :=
  let args := fresh "args" in
  let w := fresh "w" in
  intros args w; by_arity args; by_type.

Lemma Flipper_kick_shaping args w :
  arity5 OTransact Flipper.kick args w =
  shaping "kick" [T_Address; T_Address; T_int; T_Wad; T_Wad] args w.
Proof. revert args w. shaping_proof. Qed.

Lemma Flipper_tend_shaping args w :
  arity3 OTransact Flipper.tend args w =
  shaping "tend" [T_int; T_Wad; T_Wad] args w.
Proof. revert args w. shaping_proof. Qed.

Lemma Flipper_dent_shaping args w :
  arity3 OTransact Flipper.dent args w =
  shaping "dent" [T_int; T_Wad; T_Wad] args w.
Proof. revert args w. shaping_proof. Qed.

Lemma Flipper_deal_shaping args w :
  arity1 OTransact Flipper.deal args w = shaping "deal" [T_int] args w.
Proof. revert args w. shaping_proof. Qed.

Lemma Flapper_kick_shaping args w :
  arity3 OTransact Flapper.kick args w =
  shaping "kick" [T_Address; T_Wad; T_Wad] args w.
Proof. revert args w. shaping_proof. Qed.

Lemma Flapper_tend_shaping args w :
  arity3 OTransact Flapper.tend args w =
  shaping "tend" [T_int; T_Wad; T_Wad] args w.
Proof. revert args w. shaping_proof. Qed.

Lemma Flapper_deal_shaping args w :
  arity1 OTransact Flapper.deal args w = shaping "deal" [T_int] args w.
Proof. revert args w. shaping_proof. Qed.

Lemma Flopper_kick_shaping args w :
  arity3 OTransact Flopper.kick args w =
  shaping "kick" [T_Address; T_Wad; T_Wad] args w.
Proof. revert args w. shaping_proof. Qed.

Lemma Flopper_dent_shaping args w :
  arity3 OTransact Flopper.dent args w =
  shaping "dent" [T_int; T_Wad; T_Wad] args w.
Proof. revert args w. shaping_proof. Qed.

Lemma Flopper_deal_shaping args w :
  arity1 OTransact Flopper.deal args w = shaping "deal" [T_int] args w.
Proof. revert args w. shaping_proof. Qed.

Lemma mutating_cases name :
  mutating name = true ->
  name = "kick" \/ name = "tend" \/ name = "dent" \/ name = "deal".
Proof.
  unfold mutating; simpl.
  rewrite !orb_true_iff, !String.eqb_eq. intuition discriminate.
Qed.

Section Shaping.
Context {collab : Collaborators}.

(** A call of a mutating method by name is decided by the signature
    alone. *)
Lemma invoke_mutating name args w :
  mutating name = true ->
  invoke name args w =
  match signature (Contract.klass (this w)) name with
  | Some tys => shaping name tys args w
  | None => (Raise AttributeError, w)
  end.
Proof.
  intros Hm. unfold invoke, bind, get_self.
  destruct (mutating_cases name Hm) as [-> | [-> | [-> | ->]]];
    destruct (Contract.klass (this w)) eqn:Hk; unfold signature;
    cbn [class_methods]; simpl getattr; simpl String.eqb; cbv iota.
  all: try reflexivity.
  all: first [ exact (Flipper_kick_shaping args w)
             | exact (Flapper_kick_shaping args w)
             | exact (Flopper_kick_shaping args w)
             | exact (Flipper_tend_shaping args w)
             | exact (Flapper_tend_shaping args w)
             | exact (Flipper_dent_shaping args w)
             | exact (Flopper_dent_shaping args w)
             | exact (Flipper_deal_shaping args w)
             | exact (Flapper_deal_shaping args w)
             | exact (Flopper_deal_shaping args w) ].
Qed.

End Shaping.

(** What a shaping method can do, read off its definition. *)
Lemma shaping_frame name tys args w : snd (shaping name tys args w) = w.
Proof.
  unfold shaping.
  destruct (negb _); [reflexivity|]. destruct (well_typed _ _); reflexivity.
Qed.

Lemma shaping_typed name tys args w :
  well_typed args tys = true ->
  shaping name tys args w =
  (Ok (OTransact (request (this w) name (map unwrap args))), w).
Proof.
  intros Ht. unfold shaping. rewrite Ht.
  assert (Hl : Nat.eqb (length args) (length tys) = true).
  { clear name w. revert tys Ht.
    induction args as [|a args IH]; intros [|t tys] Ht;
      simpl in *; try discriminate; auto.
    apply andb_true_iff in Ht. apply IH, Ht. }
  rewrite Hl. reflexivity.
Qed.

Lemma shaping_Ok name tys args w o :
  fst (shaping name tys args w) = Ok o ->
  well_typed args tys = true /\
  o = OTransact (request (this w) name (map unwrap args)).
Proof.
  unfold shaping.
  destruct (negb _); [discriminate|].
  destruct (well_typed _ _); simpl; [|discriminate].
  intros [= <-]. auto.
Qed.

Lemma shaping_Raise name tys args w e :
  fst (shaping name tys args w) = Raise e ->
  e = TypeError \/ e = AssertionError.
Proof.
  unfold shaping.
  destruct (negb _); simpl; [intros [= <-]; auto|].
  destruct (well_typed _ _); simpl; [discriminate|intros [= <-]; auto].
Qed.

Section Mutations.
Context {collab : Collaborators}.

Lemma invoke_mutating_frame name args w :
  mutating name = true -> snd (invoke name args w) = w.
Proof.
  intros Hm. rewrite (invoke_mutating _ _ _ Hm).
  destruct (signature _ _); [apply shaping_frame | reflexivity].
Qed.

Lemma invoke_mutating_Raise name args w e :
  mutating name = true ->
  fst (invoke name args w) = Raise e ->
  e = TypeError \/ e = AssertionError \/ e = AttributeError.
Proof.
  intros Hm. rewrite (invoke_mutating _ _ _ Hm).
  destruct (signature _ _).
  - intros H. apply shaping_Raise in H. tauto.
  - simpl. intros [= <-]. auto.
Qed.

Lemma invoke_mutating_Ok name args w o :
  mutating name = true ->
  fst (invoke name args w) = Ok o ->
  exists tys,
    signature (Contract.klass (this w)) name = Some tys /\
    well_typed args tys = true /\
    o = OTransact (request (this w) name (map unwrap args)).
Proof.
  intros Hm. rewrite (invoke_mutating _ _ _ Hm).
  destruct (signature _ _) as [tys|]; [|discriminate].
  intros H. apply shaping_Ok in H. exists tys. tauto.
Qed.

End Mutations.

(** ** Claims about the mutating methods *)

(** C1, as stated, fails: on a surplus auction whose two deadlines have
    passed, [tend] reads nothing from the ledger (the list of contract calls
    stays empty) and returns the request instead of an AuctionNotActive
    error. *)
Lemma C1_tend_on_expired_auction_is_not_refused :
  Contract._contract (this expired_surplus) "era" [] = Returned (VInt 5000) /\
  Contract._contract (this expired_surplus) "bids" [VInt 1] =
    Returned (VList [VInt 105; VInt 50; VStr alice; VInt 1400; VInt 4600]) /\
  1400 <> 0 /\ 1400 <= 5000 /\ 4600 <= 5000 /\
  invoke (collab := plain) "tend"
    [VInt 1; VWad (mkWad 50); VWad (mkWad 200)] expired_surplus =
    (Ok (OTransact (request (this expired_surplus) "tend"
                      [VInt 1; VInt 50; VInt 200])),
     expired_surplus) /\
  calls expired_surplus = [] /\
  invoke (collab := plain) "tend"
    [VInt 1; VWad (mkWad 50); VWad (mkWad 200)] expired_surplus <>
    (Raise (Validation AuctionNotActive), expired_surplus).
Proof.
  repeat split; try reflexivity; try lia; discriminate.
Qed.

(** C1, amended: a mutating method called by name changes nothing and
    calls nothing on the ledger, never raises an error of the validation
    tier, and returns the request built from its arguments whenever their
    count and types are the asserted ones.  Otherwise it fails, and in one
    of three ways only: [AttributeError] when the class has no such method,
    [TypeError] when the number of arguments is wrong, [AssertionError]
    when an argument has the wrong type. *)
Theorem C1_mutating_methods_only_shape_requests
  {collab : Collaborators} name args w :
  mutating name = true ->
  snd (invoke name args w) = w /\
  (forall e, fst (invoke name args w) <> Raise (Validation e)) /\
  (forall tys,
     signature (Contract.klass (this w)) name = Some tys ->
     well_typed args tys = true ->
     fst (invoke name args w) =
     Ok (OTransact (request (this w) name (map unwrap args)))) /\
  (forall e,
     fst (invoke name args w) = Raise e ->
     e = AssertionError \/ e = TypeError \/ e = AttributeError) /\
  (signature (Contract.klass (this w)) name = None ->
   fst (invoke name args w) = Raise AttributeError) /\
  (forall tys,
     signature (Contract.klass (this w)) name = Some tys ->
     length args <> length tys ->
     fst (invoke name args w) = Raise TypeError) /\
  (forall tys,
     signature (Contract.klass (this w)) name = Some tys ->
     length args = length tys ->
     well_typed args tys = false ->
     fst (invoke name args w) = Raise AssertionError).
Proof.
  intros Hm. repeat apply conj.
  - apply invoke_mutating_frame, Hm.
  - intros e He.
    destruct (invoke_mutating_Raise _ _ _ _ Hm He) as [H | [H | H]];
      discriminate H.
  - intros tys Hs Ht. rewrite (invoke_mutating _ _ _ Hm), Hs.
    rewrite (shaping_typed _ _ _ _ Ht). reflexivity.
  - intros e He.
    destruct (invoke_mutating_Raise _ _ _ _ Hm He) as [H | [H | H]]; auto.
  - intros Hs. rewrite (invoke_mutating _ _ _ Hm), Hs. reflexivity.
  - intros tys Hs Hl. rewrite (invoke_mutating _ _ _ Hm), Hs.
    unfold shaping. apply Nat.eqb_neq in Hl. rewrite Hl. reflexivity.
  - intros tys Hs Hl Ht. rewrite (invoke_mutating _ _ _ Hm), Hs.
    unfold shaping. apply Nat.eqb_eq in Hl. rewrite Hl, Ht. reflexivity.
Qed.

Lemma C1_mutating_methods_only_shape_requests_witness :
  mutating "tend" = true /\
  snd (invoke (collab := plain) "tend"
         [VInt 1; VWad (mkWad 50); VWad (mkWad 200)] expired_surplus) =
    expired_surplus /\
  fst (invoke (collab := plain) "tend"
         [VInt 1; VWad (mkWad 50); VWad (mkWad 200)] expired_surplus) =
    Ok (OTransact (request (this expired_surplus) "tend"
                     [VInt 1; VInt 50; VInt 200])) /\
  fst (invoke (collab := plain) "tend"
         [VInt 1; VInt 50; VWad (mkWad 200)] expired_surplus) =
    Raise AssertionError /\
  fst (invoke (collab := plain) "tend" [VInt 1] expired_surplus) =
    Raise TypeError /\
  fst (invoke (collab := plain) "dent"
         [VInt 1; VWad (mkWad 50); VWad (mkWad 200)] expired_surplus) =
    Raise AttributeError.
Proof.
  pose proof (C1_mutating_methods_only_shape_requests (collab := plain)
                "tend" [VInt 1; VWad (mkWad 50); VWad (mkWad 200)]
                expired_surplus eq_refl) as (Hframe & _ & Hok & _).
  pose proof (C1_mutating_methods_only_shape_requests (collab := plain)
                "tend" [VInt 1; VInt 50; VWad (mkWad 200)]
                expired_surplus eq_refl) as (_ & _ & _ & _ & _ & _ & Hassert).
  pose proof (C1_mutating_methods_only_shape_requests (collab := plain)
                "tend" [VInt 1] expired_surplus eq_refl)
    as (_ & _ & _ & _ & _ & Harity & _).
  pose proof (C1_mutating_methods_only_shape_requests (collab := plain)
                "dent" [VInt 1; VWad (mkWad 50); VWad (mkWad 200)]
                expired_surplus eq_refl) as (_ & _ & _ & _ & Hattr & _).
  split; [reflexivity|]. split; [exact Hframe|].
  split; [exact (Hok [T_int; T_Wad; T_Wad] eq_refl eq_refl)|].
  split; [exact (Hassert [T_int; T_Wad; T_Wad] eq_refl eq_refl eq_refl)|].
  split; [|exact (Hattr eq_refl)].
  apply (Harity [T_int; T_Wad; T_Wad] eq_refl). discriminate.
Defined.

(** C2, as stated, fails: on an active collateral auction with bid 100,
    lot 50 and a minimum increase of 0.05, [Flipper.tend] returns the
    request for a bid of 104 (below 105) and for a lot of 49 (not the
    current lot) alike. *)
Lemma C2_Flipper_tend_takes_a_low_bid :
  Contract._contract (this open_collateral) "bids" [VInt 1] =
    Returned (VList [VInt 100; VInt 50; VStr alice; VInt 0; VInt 4600]) /\
  Contract._contract (this open_collateral) "beg" [] =
    Returned (VInt 50000000000000000) /\
  Contract._contract (this open_collateral) "era" [] = Returned (VInt 1100) /\
  1100 < 4600 /\
  104 * 10 ^ 18 < 100 * (10 ^ 18 + 50000000000000000) /\
  Flipper.tend (VInt 1) (VWad (mkWad 50)) (VWad (mkWad 104)) open_collateral =
    (Ok (request (this open_collateral) "tend" [VInt 1; VInt 50; VInt 104]),
     open_collateral) /\
  49 <> 50 /\
  Flipper.tend (VInt 1) (VWad (mkWad 49)) (VWad (mkWad 200)) open_collateral =
    (Ok (request (this open_collateral) "tend" [VInt 1; VInt 49; VInt 200]),
     open_collateral).
Proof.
  repeat split; try reflexivity; try lia.
Qed.

(** C2, amended: raising a bid is not validated.  For every [int] id and
    all [Wad] lot and bid, whatever the record, the parameters and the
    ledger time, [tend] of the collateral and of the surplus client returns
    the request and reads nothing; for arguments of other types it raises
    [AssertionError]; no validation error is ever raised. *)
Theorem C2_tend_is_not_validated id lot bid w :
  Flipper.tend (VInt id) (VWad lot) (VWad bid) w =
    (Ok (request (this w) "tend" [VInt id; VInt (value lot); VInt (value bid)]),
     w) /\
  Flapper.tend (VInt id) (VWad lot) (VWad bid) w =
    (Ok (request (this w) "tend" [VInt id; VInt (value lot); VInt (value bid)]),
     w) /\
  (forall a b c e,
     fst (Flipper.tend a b c w) = Raise e \/
     fst (Flapper.tend a b c w) = Raise e -> e = AssertionError) /\
  (forall a b c,
     well_typed [a; b; c] [T_int; T_Wad; T_Wad] = false ->
     Flipper.tend a b c w = (Raise AssertionError, w) /\
     Flapper.tend a b c w = (Raise AssertionError, w)) /\
  (forall a b c,
     well_typed [a; b; c] [T_int; T_Wad; T_Wad] = true ->
     Flipper.tend a b c w =
       (Ok (request (this w) "tend" (map unwrap [a; b; c])), w) /\
     Flapper.tend a b c w =
       (Ok (request (this w) "tend" (map unwrap [a; b; c])), w)).
Proof.
  split; [reflexivity|]. split; [reflexivity|]. split; [|split].
  - intros a b c e H.
    destruct a; try (destruct H as [H|H]; injection H as <-; reflexivity).
    destruct b; try (destruct H as [H|H]; injection H as <-; reflexivity).
    destruct c; try (destruct H as [H|H]; injection H as <-; reflexivity).
    destruct H as [H|H]; discriminate H.
  - intros a b c H.
    destruct a; try (split; reflexivity).
    destruct b; try (split; reflexivity).
    destruct c; try (split; reflexivity).
    discriminate H.
  - intros a b c H.
    destruct a; try discriminate H.
    destruct b; try discriminate H.
    destruct c; try discriminate H.
    split; reflexivity.
Qed.

(** [tend] with a lot that is no [Wad], and with an id that is no [int]. *)
Lemma C2_tend_is_not_validated_witness :
  Flipper.tend (VInt 1) (VInt 50) (VWad (mkWad 104)) open_collateral =
    (Raise AssertionError, open_collateral) /\
  Flapper.tend (VStr "one") (VWad (mkWad 50)) (VWad (mkWad 200))
    expired_surplus = (Raise AssertionError, expired_surplus).
Proof.
  split.
  - exact (proj1 (proj1 (proj2 (proj2 (proj2
             (C2_tend_is_not_validated 0 (mkWad 0) (mkWad 0)
                open_collateral))))
             (VInt 1) (VInt 50) (VWad (mkWad 104)) eq_refl)).
  - exact (proj2 (proj1 (proj2 (proj2 (proj2
             (C2_tend_is_not_validated 0 (mkWad 0) (mkWad 0)
                expired_surplus))))
             (VStr "one") (VWad (mkWad 50)) (VWad (mkWad 200)) eq_refl)).
Defined.

(** C4: the bid and settle methods build the requests of the call
    interface.  With an [int] id and [Wad] lot and bid, [tend] and [dent]
    of every class that defines them return the request named [tend]
    resp. [dent] with the parameters [id, lot.value, bid.value] in this
    order, and [deal] of every class returns the request named [deal]
    with the parameter [id]; this holds for the direct call and for the
    call by name.  Conversely a request that comes out of [tend], [dent]
    or [deal] carries that very function name and these parameters. *)
Theorem C4_bid_and_settle_requests_follow_the_call_interface
  {collab : Collaborators} w :
  (forall name args tx,
     In name ["tend"; "dent"; "deal"] ->
     fst (invoke name args w) = Ok (OTransact tx) ->
     Transact.function_name tx = name /\
     ((name = "deal" /\
       exists id, args = [VInt id] /\ Transact.parameters tx = [VInt id]) \/
      (name <> "deal" /\
       exists id lot bid,
         args = [VInt id; VWad lot; VWad bid] /\
         Transact.parameters tx =
           [VInt id; VInt (value lot); VInt (value bid)]))) /\
  (forall id lot bid,
     let params := [VInt id; VInt (value lot); VInt (value bid)] in
     Flipper.tend (VInt id) (VWad lot) (VWad bid) w =
       (Ok (request (this w) "tend" params), w) /\
     Flipper.dent (VInt id) (VWad lot) (VWad bid) w =
       (Ok (request (this w) "dent" params), w) /\
     Flapper.tend (VInt id) (VWad lot) (VWad bid) w =
       (Ok (request (this w) "tend" params), w) /\
     Flopper.dent (VInt id) (VWad lot) (VWad bid) w =
       (Ok (request (this w) "dent" params), w)) /\
  (forall id,
     Flipper.deal (VInt id) w = (Ok (request (this w) "deal" [VInt id]), w) /\
     Flapper.deal (VInt id) w = (Ok (request (this w) "deal" [VInt id]), w) /\
     Flopper.deal (VInt id) w = (Ok (request (this w) "deal" [VInt id]), w)) /\
  (forall name id lot bid,
     In name ["tend"; "dent"] ->
     signature (Contract.klass (this w)) name <> None ->
     invoke name [VInt id; VWad lot; VWad bid] w =
       (Ok (OTransact (request (this w) name
                         [VInt id; VInt (value lot); VInt (value bid)])), w)) /\
  (forall id,
     invoke "deal" [VInt id] w =
       (Ok (OTransact (request (this w) "deal" [VInt id])), w)) /\
  (forall self name params,
     Transact.function_name (request self name params) = name /\
     Transact.parameters (request self name params) = params).
Proof.
  split; [|split; [|split; [|split; [|split]]]].
  - intros name args tx Hin Hok.
    assert (Hm : mutating name = true).
    { simpl in Hin. destruct Hin as [<- | [<- | [<- | []]]]; reflexivity. }
    destruct (invoke_mutating_Ok _ _ _ _ Hm Hok) as (tys & Hs & Ht & [= ->]).
    split; [reflexivity|].
    simpl in Hin. destruct Hin as [<- | [<- | [<- | []]]].
    + right. split; [discriminate|].
      destruct (Contract.klass (this w)); simpl in Hs;
        try discriminate; injection Hs as <-.
      all: destruct args as [|[] [|[] [|[] [|]]]]; try discriminate Ht.
      all: eexists _, _, _; split; reflexivity.
    + right. split; [discriminate|].
      destruct (Contract.klass (this w)); simpl in Hs;
        try discriminate; injection Hs as <-.
      all: destruct args as [|[] [|[] [|[] [|]]]]; try discriminate Ht.
      all: eexists _, _, _; split; reflexivity.
    + left. split; [reflexivity|].
      unfold signature in Hs; simpl in Hs. injection Hs as <-.
      destruct args as [|[] [|]]; try discriminate Ht.
      eexists; split; reflexivity.
  - intros id lot bid. cbv zeta. repeat split.
  - intros id. repeat split.
  - intros name id lot bid Hin Hs.
    assert (Hm : mutating name = true).
    { simpl in Hin. destruct Hin as [<- | [<- | []]]; reflexivity. }
    rewrite (invoke_mutating _ _ _ Hm).
    simpl in Hin. destruct Hin as [<- | [<- | []]];
      destruct (Contract.klass (this w)); simpl in Hs |- *;
      try reflexivity; destruct (Hs eq_refl).
  - intros id. rewrite (invoke_mutating "deal" _ _ eq_refl). reflexivity.
  - intros self name params. split; reflexivity.
Qed.

(** A raised bid on the collateral client, a lowered lot on the debt
    client and a settlement on the surplus client. *)
Lemma C4_bid_and_settle_requests_follow_the_call_interface_witness :
  (fst (invoke (collab := plain) "tend"
          [VInt 1; VWad (mkWad 50); VWad (mkWad 105)] open_collateral) =
     Ok (OTransact (request (this open_collateral) "tend"
                      [VInt 1; VInt 50; VInt 105])) /\
   Transact.function_name
     (request (this open_collateral) "tend" [VInt 1; VInt 50; VInt 105])
     = "tend") /\
  (fst (invoke (collab := plain) "dent"
          [VInt 1; VWad (mkWad 40); VWad (mkWad 100)] empty_debt) =
     Ok (OTransact (request (this empty_debt) "dent"
                      [VInt 1; VInt 40; VInt 100])) /\
   Transact.function_name
     (request (this empty_debt) "dent" [VInt 1; VInt 40; VInt 100])
     = "dent") /\
  (fst (invoke (collab := plain) "deal" [VInt 1] expired_surplus) =
     Ok (OTransact (request (this expired_surplus) "deal" [VInt 1])) /\
   Transact.function_name (request (this expired_surplus) "deal" [VInt 1])
     = "deal").
Proof.
  split; [|split].
  - split; [reflexivity|].
    exact (proj1 (proj1 (C4_bid_and_settle_requests_follow_the_call_interface
                           (collab := plain) open_collateral)
                    "tend" [VInt 1; VWad (mkWad 50); VWad (mkWad 105)]
                    (request (this open_collateral) "tend"
                       [VInt 1; VInt 50; VInt 105])
                    (or_introl eq_refl) eq_refl)).
  - split; [reflexivity|].
    exact (proj1 (proj1 (C4_bid_and_settle_requests_follow_the_call_interface
                           (collab := plain) empty_debt)
                    "dent" [VInt 1; VWad (mkWad 40); VWad (mkWad 100)]
                    (request (this empty_debt) "dent"
                       [VInt 1; VInt 40; VInt 100])
                    (or_intror (or_introl eq_refl)) eq_refl)).
  - split; [reflexivity|].
    exact (proj1 (proj1 (C4_bid_and_settle_requests_follow_the_call_interface
                           (collab := plain) expired_surplus)
                    "deal" [VInt 1]
                    (request (this expired_surplus) "deal" [VInt 1])
                    (or_intror (or_intror (or_introl eq_refl))) eq_refl)).
Defined.

(** C5, as stated, fails: [Flopper.kick] called with lot 7 and bid 3 puts
    the lot before the bid in the parameter list. *)
Lemma C5_Flopper_kick_puts_the_lot_first :
  exists tx,
    Flopper.kick (VAddress (mkAddress alice)) (VWad (mkWad 7))
      (VWad (mkWad 3)) empty_debt = (Ok tx, empty_debt) /\
    Transact.parameters tx = [VStr alice; VInt 7; VInt 3] /\
    Transact.parameters tx <> [VStr alice; VInt 3; VInt 7].
Proof.
  eexists. split; [reflexivity|]. split; [reflexivity|discriminate].
Qed.

(** C5, amended: the kick request of the debt client carries
    [gal.address, lot.value, bid.value], the lot before the bid. *)
Theorem C5_Flopper_kick_argument_order gal lot bid w :
  Flopper.kick (VAddress gal) (VWad lot) (VWad bid) w =
  (Ok (request (this w) "kick"
         [VStr (address gal); VInt (value lot); VInt (value bid)]), w).
Proof. reflexivity. Qed.

(** C8, as stated, fails: a collateral kick with target amount, lot and bid
    all zero, and a surplus kick with a negative bid, return a request. *)
Lemma C8_kick_takes_non_positive_quantities :
  0 <= 0 /\ -5 <= 0 /\
  Flipper.kick (VAddress (mkAddress alice)) (VAddress (mkAddress alice))
    (VInt 0) (VWad (mkWad 0)) (VWad (mkWad 0)) open_collateral =
    (Ok (request (this open_collateral) "kick"
           [VStr alice; VStr alice; VInt 0; VInt 0; VInt 0]),
     open_collateral) /\
  Flapper.kick (VAddress (mkAddress alice)) (VWad (mkWad 0))
    (VWad (mkWad (-5))) empty_surplus =
    (Ok (request (this empty_surplus) "kick"
           [VStr alice; VInt 0; VInt (-5)]),
     empty_surplus).
Proof.
  repeat split; try reflexivity; lia.
Qed.

(** C8, amended: [kick] checks the types of its arguments and nothing
    about their sign.  For arguments of the asserted types each of the
    three clients returns the kick request, whatever the quantities; no
    call of [kick] raises InvalidParameters or another validation error. *)
Theorem C8_kick_is_not_validated
  {collab : Collaborators} lad gal tab lot bid w :
  Flipper.kick (VAddress lad) (VAddress gal) (VInt tab) (VWad lot)
    (VWad bid) w =
    (Ok (request (this w) "kick"
           [VStr (address lad); VStr (address gal); VInt tab;
            VInt (value lot); VInt (value bid)]), w) /\
  Flapper.kick (VAddress gal) (VWad lot) (VWad bid) w =
    (Ok (request (this w) "kick"
           [VStr (address gal); VInt (value lot); VInt (value bid)]), w) /\
  Flopper.kick (VAddress gal) (VWad lot) (VWad bid) w =
    (Ok (request (this w) "kick"
           [VStr (address gal); VInt (value lot); VInt (value bid)]), w) /\
  (forall args e, fst (invoke "kick" args w) <> Raise (Validation e)).
Proof.
  repeat split. intros args e He.
  destruct (invoke_mutating_Raise "kick" args w _ eq_refl He)
    as [H | [H | H]]; discriminate H.
Qed.

(** C9: a mutating method called by name leaves the three attributes of
    the client as they were and makes no contract call; what comes back is
    a request or an exception. *)
Theorem C9_mutating_methods_leave_the_client_untouched
  {collab : Collaborators} name args w :
  mutating name = true ->
  let w' := snd (invoke name args w) in
  Contract.web3 (this w') = Contract.web3 (this w) /\
  Contract.address (this w') = Contract.address (this w) /\
  Contract._contract (this w') = Contract._contract (this w) /\
  calls w' = calls w /\
  ((exists tx, fst (invoke name args w) = Ok (OTransact tx)) \/
   (exists e, fst (invoke name args w) = Raise e)).
Proof.
  intros Hm w'. subst w'. rewrite (invoke_mutating_frame _ _ _ Hm).
  repeat split.
  destruct (fst (invoke name args w)) as [o|e] eqn:Hr.
  - destruct (invoke_mutating_Ok _ _ _ _ Hm Hr) as (tys & _ & _ & ->).
    left. eexists. reflexivity.
  - right. eexists. reflexivity.
Qed.

Lemma C9_mutating_methods_leave_the_client_untouched_witness :
  mutating "kick" = true /\
  calls (snd (invoke (collab := plain) "kick"
                [VAddress (mkAddress alice); VWad (mkWad 7); VWad (mkWad 3)]
                empty_debt)) = calls empty_debt.
Proof.
  destruct (C9_mutating_methods_leave_the_client_untouched (collab := plain)
              "kick"
              [VAddress (mkAddress alice); VWad (mkWad 7); VWad (mkWad 3)]
              empty_debt eq_refl) as (_ & _ & _ & Hc & _).
  split; [reflexivity | exact Hc].
Defined.

(** ** Claims about the read surface *)

(** C3 fails on the collateral client: the class body of [Flipper] defines
    neither [bids] nor [kicks], so calling either raises [AttributeError],
    while [Flapper] and [Flopper] define both.  The parameter reads and
    [deal] are there in all three classes. *)
Theorem C3_Flipper_has_no_record_queries
  {collab : Collaborators} web3 addr binding cs args :
  exposes Flipper_class "bids" = false /\
  exposes Flipper_class "kicks" = false /\
  forallb (fun c => exposes c "bids" && exposes c "kicks")
    [Flapper_class; Flopper_class] = true /\
  forallb (fun c => forallb (exposes c) ["beg"; "ttl"; "tau"; "deal"])
    [Flipper_class; Flapper_class; Flopper_class] = true /\
  invoke "bids" args (mkWorld (Contract.mk Flipper_class web3 addr binding) cs)
    = (Raise AttributeError,
       mkWorld (Contract.mk Flipper_class web3 addr binding) cs) /\
  invoke "kicks" args (mkWorld (Contract.mk Flipper_class web3 addr binding) cs)
    = (Raise AttributeError,
       mkWorld (Contract.mk Flipper_class web3 addr binding) cs).
Proof. repeat split. Qed.

(** Unfolds the record decoders down to the calls of the collaborators. *)
Ltac open_decode :=
  cbv [Flapper.decode Flopper.decode Flapper.Bid__init__ Flopper.Bid__init__
       bind subscript Wad_ Address_ int_ lift ret raise
       assert_Wad assert_Address assert_int view
       Flapper_fields Flopper_fields fst snd
       Flapper.bid Flapper.lot Flapper.guy Flapper.tic Flapper.end_
       Flopper.bid Flopper.lot Flopper.guy Flopper.tic Flopper.end_].

(** Case analysis on the next item read or the next conversion made. *)
Ltac next_read :=
  match goal with
  | |- context [match getitem ?a ?i with _ => _ end] =>
      destruct (getitem a i) eqn:?
  | |- context [match Wad_new ?a with _ => _ end] =>
      destruct (Wad_new a) eqn:?
  | |- context [match Address_new ?a with _ => _ end] =>
      destruct (Address_new a) eqn:?
  | |- context [match to_int ?a with _ => _ end] =>
      destruct (to_int a) eqn:?
  end.

Lemma getitem_Raise array i e :
  getitem array i = Raise e -> e = IndexError \/ e = TypeError.
Proof.
  destruct array; simpl; try (intros [= <-]; auto).
  - destruct (String.get i s); [discriminate | intros [= <-]; auto].
  - destruct (nth_error l i); [discriminate | intros [= <-]; auto].
Qed.

Section Decoding.
Context {collab : Collaborators}.

Lemma decode_agree array w :
  view Flapper_fields (Flapper.decode array w) =
  view Flopper_fields (Flopper.decode array w).
Proof. open_decode. repeat next_read; reflexivity. Qed.

Lemma Flapper_decode_Ok array w b w' :
  Flapper.decode array w = (Ok b, w') ->
  w' = w /\ positional array (Flapper_fields b).
Proof.
  open_decode. repeat next_read; try discriminate.
  intros [= <- <-]. split; [reflexivity|].
  unfold positional; simpl. eauto 15.
Qed.

Lemma Flopper_decode_Ok array w b w' :
  Flopper.decode array w = (Ok b, w') ->
  w' = w /\ positional array (Flopper_fields b).
Proof.
  open_decode. repeat next_read; try discriminate.
  intros [= <- <-]. split; [reflexivity|].
  unfold positional; simpl. eauto 15.
Qed.

Lemma Flapper_decode_Raise array w e :
  fst (Flapper.decode array w) = Raise e ->
  e = IndexError \/ e = TypeError \/ exists why, e = External why.
Proof.
  open_decode. repeat next_read; try discriminate; intros [= <-]; eauto.
  all: match goal with
       | H : getitem _ _ = Raise _ |- _ =>
           destruct (getitem_Raise _ _ _ H); auto
       end.
Qed.

End Decoding.

Section Records.
Context {collab : Collaborators}.

Lemma Flopper_decode_Raise array w e :
  fst (Flopper.decode array w) = Raise e ->
  e = IndexError \/ e = TypeError \/ exists why, e = External why.
Proof.
  intros H. apply (Flapper_decode_Raise array w).
  pose proof (decode_agree array w) as Ha.
  destruct (Flapper.decode array w) as [[b|e1] w1],
           (Flopper.decode array w) as [[b'|e2] w2];
    simpl in *; congruence.
Qed.

(** [bids] is one contract call followed by [decode]. *)
Lemma Flapper_bids_unfold n w :
  Flapper.bids (VInt n) w =
  match Contract._contract (this w) "bids" [VInt n] with
  | Returned array => Flapper.decode array (logged w "bids" [VInt n])
  | Failed why => (Raise (External why), logged w "bids" [VInt n])
  end.
Proof.
  cbv [Flapper.bids bind assert_int ret call lift raise logged].
  destruct (Contract._contract (this w) "bids" [VInt n]); reflexivity.
Qed.

Lemma Flopper_bids_unfold n w :
  Flopper.bids (VInt n) w =
  match Contract._contract (this w) "bids" [VInt n] with
  | Returned array => Flopper.decode array (logged w "bids" [VInt n])
  | Failed why => (Raise (External why), logged w "bids" [VInt n])
  end.
Proof.
  cbv [Flopper.bids bind assert_int ret call lift raise logged].
  destruct (Contract._contract (this w) "bids" [VInt n]); reflexivity.
Qed.

End Records.

(** C6, as stated, fails: on a ledger with no auction at all ([kicks] is
    0), the record query for id 7 decodes the all-zero tuple the ledger
    answers and returns it. *)
Lemma C6_bids_of_an_unknown_id_returns_a_record :
  Flapper.kicks (collab := plain) empty_surplus =
    (Ok 0, logged empty_surplus "kicks" []) /\
  Flapper.bids (collab := plain) (VInt 7) empty_surplus =
    (Ok (Flapper.mkBid (mkWad 0) (mkWad 0) (mkAddress zero_address) 0 0),
     logged empty_surplus "bids" [VInt 7]) /\
  Flapper.bids (collab := plain) (VInt 7) empty_surplus <>
    (Raise (Validation NotFoundError), logged empty_surplus "bids" [VInt 7]).
Proof.
  split; [reflexivity|]. split; [reflexivity|discriminate].
Qed.

(** C6, amended: the record query makes no existence check.  For every id
    it makes the one contract call [bids(id)] and decodes whatever array
    comes back; a failure of the call itself is passed on; a NotFoundError
    or any other validation error is never raised. *)
Theorem C6_bids_decodes_whatever_the_ledger_answers
  {collab : Collaborators} n w :
  Flapper.bids (VInt n) w =
    match Contract._contract (this w) "bids" [VInt n] with
    | Returned array => Flapper.decode array (logged w "bids" [VInt n])
    | Failed why => (Raise (External why), logged w "bids" [VInt n])
    end /\
  Flopper.bids (VInt n) w =
    match Contract._contract (this w) "bids" [VInt n] with
    | Returned array => Flopper.decode array (logged w "bids" [VInt n])
    | Failed why => (Raise (External why), logged w "bids" [VInt n])
    end /\
  (forall id e, fst (Flapper.bids id w) <> Raise (Validation e)) /\
  (forall id e, fst (Flopper.bids id w) <> Raise (Validation e)).
Proof.
  split; [apply Flapper_bids_unfold|]. split; [apply Flopper_bids_unfold|].
  split; intros id e; destruct id as [| m | | | |]; try discriminate.
  - rewrite Flapper_bids_unfold.
    destruct (Contract._contract (this w) "bids" [VInt m]);
      [|discriminate].
    intros H. apply Flapper_decode_Raise in H.
    destruct H as [H | [H | [why H]]]; discriminate H.
  - rewrite Flopper_bids_unfold.
    destruct (Contract._contract (this w) "bids" [VInt m]);
      [|discriminate].
    intros H. apply Flopper_decode_Raise in H.
    destruct H as [H | [H | [why H]]]; discriminate H.
Qed.

Section Positions.
Context {collab : Collaborators}.

(** When the items 0 to 4 convert, [decode] returns the record made of
    the five conversions. *)
Lemma Flapper_decode_positional array w b :
  positional array (Flapper_fields b) ->
  Flapper.decode array w = (Ok b, w).
Proof.
  destruct b as [b l g t e]. unfold positional, Flapper_fields; simpl.
  intros (a0 & a1 & a2 & a3 & a4 & G0 & C0 & G1 & C1 & G2 & C2 & G3 & C3
          & G4 & C4).
  open_decode. rewrite G0, C0, G1, C1, G2, C2, G3, C3, G4, C4.
  reflexivity.
Qed.

Lemma Flopper_decode_positional array w b :
  positional array (Flopper_fields b) ->
  Flopper.decode array w = (Ok b, w).
Proof.
  destruct b as [b l g t e]. unfold positional, Flopper_fields; simpl.
  intros (a0 & a1 & a2 & a3 & a4 & G0 & C0 & G1 & C1 & G2 & C2 & G3 & C3
          & G4 & C4).
  open_decode. rewrite G0, C0, G1, C1, G2, C2, G3, C3, G4, C4.
  reflexivity.
Qed.

End Positions.

(** C7: [bids] decodes by position, in both classes.  A record that
    [bids] returns comes from an [int] id and an array the contract
    replied with, and its attributes bid, lot, guy, tic and end are the
    conversions of the items 0, 1, 2, 3 and 4 of that array; items after
    the fifth are never read.  And whenever the contract replies to an
    [int] id with an array whose items 0 to 4 convert, [bids] returns the
    record of these five conversions, after that one call. *)
Theorem C7_bids_decoding_is_positional {collab : Collaborators} id w :
  (forall b w',
     Flapper.bids id w = (Ok b, w') ->
     exists n array,
       id = VInt n /\
       Contract._contract (this w) "bids" [VInt n] = Returned array /\
       positional array (Flapper_fields b)) /\
  (forall b w',
     Flopper.bids id w = (Ok b, w') ->
     exists n array,
       id = VInt n /\
       Contract._contract (this w) "bids" [VInt n] = Returned array /\
       positional array (Flopper_fields b)) /\
  (forall a0 a1 a2 a3 a4 more,
     Flapper.decode (VList (a0 :: a1 :: a2 :: a3 :: a4 :: more)) w =
     Flapper.decode (VList [a0; a1; a2; a3; a4]) w /\
     Flopper.decode (VList (a0 :: a1 :: a2 :: a3 :: a4 :: more)) w =
     Flopper.decode (VList [a0; a1; a2; a3; a4]) w) /\
  (forall n array b,
     id = VInt n ->
     Contract._contract (this w) "bids" [VInt n] = Returned array ->
     positional array (Flapper_fields b) ->
     Flapper.bids id w = (Ok b, logged w "bids" [VInt n])) /\
  (forall n array b,
     id = VInt n ->
     Contract._contract (this w) "bids" [VInt n] = Returned array ->
     positional array (Flopper_fields b) ->
     Flopper.bids id w = (Ok b, logged w "bids" [VInt n])) /\
  (forall a0 a1 a2 a3 a4 bid lot guy tic end_,
     Wad_new a0 = Returned bid -> Wad_new a1 = Returned lot ->
     Address_new a2 = Returned guy ->
     to_int a3 = Returned tic -> to_int a4 = Returned end_ ->
     Flapper.decode (VList [a0; a1; a2; a3; a4]) w =
       (Ok (Flapper.mkBid bid lot guy tic end_), w) /\
     Flopper.decode (VList [a0; a1; a2; a3; a4]) w =
       (Ok (Flopper.mkBid bid lot guy tic end_), w)).
Proof.
  split; [|split; [|split; [|split; [|split]]]].
  - intros b w' H. destruct id as [| n | | | |]; try discriminate H.
    rewrite Flapper_bids_unfold in H.
    destruct (Contract._contract (this w) "bids" [VInt n]) as [array|] eqn:Hr;
      [|discriminate H].
    apply Flapper_decode_Ok in H. exists n, array. tauto.
  - intros b w' H. destruct id as [| n | | | |]; try discriminate H.
    rewrite Flopper_bids_unfold in H.
    destruct (Contract._contract (this w) "bids" [VInt n]) as [array|] eqn:Hr;
      [|discriminate H].
    apply Flopper_decode_Ok in H. exists n, array. tauto.
  - intros. split; reflexivity.
  - intros n array b -> Hr Hp.
    rewrite Flapper_bids_unfold, Hr. apply Flapper_decode_positional, Hp.
  - intros n array b -> Hr Hp.
    rewrite Flopper_bids_unfold, Hr. apply Flopper_decode_positional, Hp.
  - intros a0 a1 a2 a3 a4 bid lot guy tic end_ H0 H1 H2 H3 H4. split.
    + apply Flapper_decode_positional. unfold positional; simpl.
      exists a0, a1, a2, a3, a4. repeat split; assumption.
    + apply Flopper_decode_positional. unfold positional; simpl.
      exists a0, a1, a2, a3, a4. repeat split; assumption.
Qed.

(** The surplus record of [expired_surplus] and the debt record of
    [running_debt], each read through its own class. *)
Lemma C7_bids_decoding_is_positional_witness :
  (Flapper.bids (collab := plain) (VInt 1) expired_surplus =
     (Ok (Flapper.mkBid (mkWad 105) (mkWad 50) (mkAddress alice) 1400 4600),
      logged expired_surplus "bids" [VInt 1]) /\
   exists n array,
     VInt 1 = VInt n /\
     Contract._contract (this expired_surplus) "bids" [VInt n] =
       Returned array /\
     positional (collab := plain) array
       (mkWad 105, mkWad 50, mkAddress alice, 1400, 4600)) /\
  Flopper.bids (collab := plain) (VInt 1) running_debt =
    (Ok (Flopper.mkBid (mkWad 100) (mkWad 40) (mkAddress alice) 1300 4600),
     logged running_debt "bids" [VInt 1]).
Proof.
  split; [split; [reflexivity|]|].
  - exact (proj1 (C7_bids_decoding_is_positional (collab := plain) (VInt 1)
                    expired_surplus)
             (Flapper.mkBid (mkWad 105) (mkWad 50) (mkAddress alice) 1400 4600)
             (logged expired_surplus "bids" [VInt 1]) eq_refl).
  - apply (proj1 (proj2 (proj2 (proj2 (proj2
             (C7_bids_decoding_is_positional (collab := plain) (VInt 1)
                running_debt)))))
             1 (VList [VInt 100; VInt 40; VStr alice; VInt 1300; VInt 4600])
             (Flopper.mkBid (mkWad 100) (mkWad 40) (mkAddress alice) 1300 4600)
             eq_refl eq_refl).
    exists (VInt 100), (VInt 40), (VStr alice), (VInt 1300), (VInt 4600).
    repeat split.
Defined.

(** C10: the surplus and the debt decoder agree.  On every array, and so
    on every array of five items, both raise the same exception or both
    return records with the same bid, lot, guy, tic and end; the same
    holds for the two [bids] methods on every id and ledger. *)
Theorem C10_Flapper_and_Flopper_decode_alike
  {collab : Collaborators} array id w :
  view Flapper_fields (Flapper.decode array w) =
    view Flopper_fields (Flopper.decode array w) /\
  view Flapper_fields (Flapper.bids id w) =
    view Flopper_fields (Flopper.bids id w).
Proof.
  split; [apply decode_agree|].
  destruct id as [| n | | | |]; try reflexivity.
  rewrite Flapper_bids_unfold, Flopper_bids_unfold.
  destruct (Contract._contract (this w) "bids" [VInt n]);
    [apply decode_agree | reflexivity].
Qed.

(** Both decoders do return a record on a five-item array of the ledger's
    types. *)
Example decode_five_items :
  view Flapper_fields
    (Flapper.decode (collab := plain)
       (VList [VInt 105; VInt 50; VStr alice; VInt 1400; VInt 4600])
       empty_surplus) =
    (Ok (mkWad 105, mkWad 50, mkAddress alice, 1400, 4600), empty_surplus) /\
  view Flopper_fields
    (Flopper.decode (collab := plain)
       (VList [VInt 105; VInt 50; VStr alice; VInt 1400; VInt 4600])
       empty_surplus) =
    (Ok (mkWad 105, mkWad 50, mkAddress alice, 1400, 4600), empty_surplus).
Proof. split; reflexivity. Qed.

(** * Further properties of the clients *)

(** ** The parameter reads *)

(** Runs a method call by name down to the replies of the binding and of
    the conversions. *)
Ltac open_invoke :=
  cbv -[Contract._contract Wad_new Address_new to_int this calls app
        Contract.klass Contract.web3 Contract.address].

Ltac next_reply :=
  match goal with
  | |- context [match Contract._contract ?b ?f ?a with _ => _ end] =>
      destruct (Contract._contract b f a) eqn:?
  | |- context [match Wad_new ?a with _ => _ end] =>
      destruct (Wad_new a) eqn:?
  | |- context [match Address_new ?a with _ => _ end] =>
      destruct (Address_new a) eqn:?
  | |- context [match to_int ?a with _ => _ end] =>
      destruct (to_int a) eqn:?
  end.

Ltac each_read H :=
  simpl in H;
  destruct H as [<- | [<- | [<- | [<- | [<- | [<- | [<- | []]]]]]]].

Section ParameterReads.
Context {collab : Collaborators}.

(** X1: a parameter read makes exactly one contract call, of the function
    of its own name and without arguments, and leaves the client as it
    was, whatever the contract replies and whether or not the reply can
    be converted. *)
Theorem X1_parameter_read_makes_one_call name w :
  In name parameter_reads ->
  exposes (Contract.klass (this w)) name = true ->
  snd (invoke name [] w) = logged w name [].
Proof.
  intros Hin Hex. each_read Hin.
  all: unfold invoke, bind, get_self;
    destruct (Contract.klass (this w)); try discriminate Hex.
  all: open_invoke; repeat next_reply; reflexivity.
Qed.

End ParameterReads.

Lemma X1_parameter_read_makes_one_call_witness :
  In "ttl" parameter_reads /\
  exposes (collab := plain) (Contract.klass (this expired_surplus)) "ttl"
    = true /\
  snd (invoke (collab := plain) "ttl" [] expired_surplus) =
    logged expired_surplus "ttl" [].
Proof.
  assert (Hin : In "ttl" parameter_reads) by (simpl; tauto).
  split; [exact Hin|]. split; [reflexivity|].
  exact (X1_parameter_read_makes_one_call (collab := plain) "ttl"
           expired_surplus Hin eq_refl).
Defined.

Section ReadFailures.
Context {collab : Collaborators}.

(** X2: when the contract call behind a parameter read fails, the read
    raises that very failure; nothing is swallowed and no default is
    returned. *)
Theorem X2_parameter_read_passes_a_failure_on name w why :
  In name parameter_reads ->
  exposes (Contract.klass (this w)) name = true ->
  Contract._contract (this w) name [] = Failed why ->
  fst (invoke name [] w) = Raise (External why).
Proof.
  intros Hin Hex. each_read Hin.
  all: unfold invoke, bind, get_self;
    destruct (Contract.klass (this w)); try discriminate Hex.
  all: open_invoke; intros ->; reflexivity.
Qed.

(** X3: the parameter reads do not depend on the variant.  Two clients of
    different classes over the same binding give the same result and log
    the same contract calls, for each read both classes define. *)
Theorem X3_parameter_reads_agree_across_variants
  c1 c2 name args h a b cs :
  In name parameter_reads ->
  exposes c1 name = true ->
  exposes c2 name = true ->
  fst (invoke name args (mkWorld (Contract.mk c1 h a b) cs)) =
    fst (invoke name args (mkWorld (Contract.mk c2 h a b) cs)) /\
  calls (snd (invoke name args (mkWorld (Contract.mk c1 h a b) cs))) =
    calls (snd (invoke name args (mkWorld (Contract.mk c2 h a b) cs))).
Proof.
  intros Hin H1 H2. each_read Hin.
  all: destruct c1; try discriminate H1; destruct c2; try discriminate H2.
  all: unfold invoke, bind, get_self; cbn [this Contract.klass].
  all: destruct args as [|x xs]; open_invoke;
    cbn [this calls Contract._contract];
    repeat match goal with
           | |- context [match ?r with Returned _ => _ | Failed _ => _ end] =>
               destruct r
           end;
    split; reflexivity.
Qed.

End ReadFailures.

(** A ledger that cannot be reached. *)
Lemma X2_parameter_read_passes_a_failure_on_witness :
  fst (invoke (collab := plain) "beg" []
         (new_world (client Flipper_class (fun f _ => Failed f)))) =
    Raise (External "beg").
Proof.
  apply (X2_parameter_read_passes_a_failure_on (collab := plain) "beg"
           (new_world (client Flipper_class (fun f _ => Failed f))) "beg").
  - simpl; tauto.
  - reflexivity.
  - reflexivity.
Defined.

Lemma X3_parameter_reads_agree_across_variants_witness :
  fst (invoke (collab := plain) "tau" [] open_collateral) = Ok (OInt 3600) /\
  fst (invoke (collab := plain) "tau" []
         (mkWorld (Contract.mk Flopper_class (Contract.web3 (this open_collateral))
                     (Contract.address (this open_collateral))
                     (Contract._contract (this open_collateral))) [])) =
    Ok (OInt 3600).
Proof.
  assert (Hin : In "tau" parameter_reads) by (simpl; tauto).
  destruct (X3_parameter_reads_agree_across_variants (collab := plain)
              Flipper_class Flopper_class "tau" []
              (Contract.web3 (this open_collateral))
              (Contract.address (this open_collateral))
              (Contract._contract (this open_collateral)) []
              Hin eq_refl eq_refl) as [Hr _].
  split; [reflexivity|]. rewrite <- Hr. reflexivity.
Defined.

(** ** The record query *)

Section RecordQuery.
Context {collab : Collaborators}.

Lemma Flapper_decode_frame array w : snd (Flapper.decode array w) = w.
Proof. open_decode. repeat next_read; reflexivity. Qed.

Lemma Flopper_decode_frame array w : snd (Flopper.decode array w) = w.
Proof. open_decode. repeat next_read; reflexivity. Qed.

(** X4: [bids] checks its argument before it touches the ledger.  With an
    [int] id it makes exactly one contract call, [bids(id)], whatever
    becomes of the reply; with any other id it raises [AssertionError] and
    makes no call at all. *)
Theorem X4_bids_calls_the_contract_once id w :
  snd (Flapper.bids id w) =
    (if isinstance id T_int then logged w "bids" [id] else w) /\
  snd (Flopper.bids id w) =
    (if isinstance id T_int then logged w "bids" [id] else w) /\
  (isinstance id T_int = false ->
   fst (Flapper.bids id w) = Raise AssertionError /\
   fst (Flopper.bids id w) = Raise AssertionError).
Proof.
  destruct id as [| n | | | |]; try (repeat split; discriminate).
  all: try (split; [reflexivity|]; split; [reflexivity|];
            intros _; split; reflexivity).
  rewrite Flapper_bids_unfold, Flopper_bids_unfold. simpl isinstance.
  destruct (Contract._contract (this w) "bids" [VInt n]).
  - rewrite Flapper_decode_frame, Flopper_decode_frame.
    repeat split; discriminate.
  - repeat split; discriminate.
Qed.

(** X5: the decoders succeed exactly when the items 0 to 4 of the array
    exist and each of the five conversions succeeds; the record then
    holds the five converted items.  Nothing else about the array
    matters. *)
Theorem X5_decode_succeeds_iff_five_items_convert array w fb fo :
  (Flapper.decode array w = (Ok fb, w) <->
   positional array (Flapper_fields fb)) /\
  (Flopper.decode array w = (Ok fo, w) <->
   positional array (Flopper_fields fo)).
Proof.
  split; split.
  - intros H. apply (Flapper_decode_Ok _ _ _ _ H).
  - destruct fb as [b l g t e]. unfold positional, Flapper_fields; simpl.
    intros (a0 & a1 & a2 & a3 & a4 & G0 & C0 & G1 & C1 & G2 & C2 & G3 & C3
            & G4 & C4).
    open_decode. rewrite G0, C0, G1, C1, G2, C2, G3, C3, G4, C4.
    reflexivity.
  - intros H. apply (Flopper_decode_Ok _ _ _ _ H).
  - destruct fo as [b l g t e]. unfold positional, Flopper_fields; simpl.
    intros (a0 & a1 & a2 & a3 & a4 & G0 & C0 & G1 & C1 & G2 & C2 & G3 & C3
            & G4 & C4).
    open_decode. rewrite G0, C0, G1, C1, G2, C2, G3, C3, G4, C4.
    reflexivity.
Qed.


End RecordQuery.


(** ** The requests *)

Lemma well_typed_unwrap args tys :
  well_typed args tys = true ->
  forallb plain_value (map unwrap args) = true.
Proof.
  revert tys. induction args as [|a args IH]; intros [|t tys] H;
    simpl in *; try discriminate; auto.
  apply andb_true_iff in H. destruct H as [Ha Hr].
  rewrite (IH _ Hr), andb_true_r.
  destruct a, t; try discriminate Ha; reflexivity.
Qed.

(** X7: every request a mutating method returns is consistent with the
    client that built it: it names that client as origin and carries the
    client's own web3 handle, address and binding and the abi of the
    client's class.  Its parameter list has one entry per argument of the
    call, and every entry is an [int] or a [str]: no [Wad] and no
    [Address] object reaches the contract interface. *)
Theorem X7_requests_are_consistent_and_plain
  {collab : Collaborators} name args w tx :
  mutating name = true ->
  fst (invoke name args w) = Ok (OTransact tx) ->
  Transact.origin tx = this w /\
  Transact.web3 tx = Contract.web3 (this w) /\
  Transact.abi tx = class_abi (Contract.klass (this w)) /\
  Transact.address tx = Contract.address (this w) /\
  Transact.contract tx = Contract._contract (this w) /\
  length (Transact.parameters tx) = length args /\
  forallb plain_value (Transact.parameters tx) = true.
Proof.
  intros Hm Hok.
  destruct (invoke_mutating_Ok _ _ _ _ Hm Hok) as (tys & _ & Ht & [= ->]).
  repeat split; simpl.
  - apply length_map.
  - apply (well_typed_unwrap _ _ Ht).
Qed.

Lemma X7_requests_are_consistent_and_plain_witness :
  Transact.address
    (request (this open_collateral) "kick"
       [VStr alice; VStr alice; VInt 200; VInt 50; VInt 100]) =
    Contract.address (this open_collateral) /\
  forallb plain_value [VStr alice; VStr alice; VInt 200; VInt 50; VInt 100]
    = true.
Proof.
  destruct (X7_requests_are_consistent_and_plain (collab := plain) "kick"
              [VAddress (mkAddress alice); VAddress (mkAddress alice);
               VInt 200; VWad (mkWad 50); VWad (mkWad 100)]
              open_collateral
              (request (this open_collateral) "kick"
                 [VStr alice; VStr alice; VInt 200; VInt 50; VInt 100])
              eq_refl eq_refl) as (_ & _ & _ & Ha & _ & _ & Hp).
  split; [exact Ha | exact Hp].
Defined.

(** ** Approval *)

Ltac open_approve :=
  cbv [Flapper_approve Flopper_approve Flapper.gem Flopper.pie
       bind get_self call lift Address_ ret raise view logged];
  cbn [this calls].

Section ApprovalFacts.
Context {collab : Collaborators}.


(** X9: when the token address cannot be read, because the contract call
    fails or its reply is no address, [approve] raises that failure after
    the one call and the approval function is not run. *)
Theorem X9_approve_stops_when_the_token_is_unknown f w :
  (forall e,
     fst (Flapper.gem w) = Raise e ->
     Flapper_approve f w = (Raise e, logged w "gem" [])) /\
  (forall e,
     fst (Flopper.pie w) = Raise e ->
     Flopper_approve f w = (Raise e, logged w "pie" [])).
Proof.
  split; intros e; open_approve.
  - destruct (Contract._contract (this w) "gem" []) as [r|why];
      cbn [this calls fst].
    + destruct (Address_new r); cbn [fst]; [discriminate|].
      intros [= <-]. reflexivity.
    + intros [= <-]. reflexivity.
  - destruct (Contract._contract (this w) "pie" []) as [r|why];
      cbn [this calls fst].
    + destruct (Address_new r); cbn [fst]; [discriminate|].
      intros [= <-]. reflexivity.
    + intros [= <-]. reflexivity.
Qed.

End ApprovalFacts.


Lemma X9_approve_stops_when_the_token_is_unknown_witness :
  Flapper_approve (collab := plain) recording expired_surplus =
  (Raise (External "gem"), logged expired_surplus "gem" []).
Proof.
  exact (proj1 (X9_approve_stops_when_the_token_is_unknown (collab := plain)
                  recording expired_surplus) (External "gem") eq_refl).
Defined.

(** ** Construction *)

(** X10: the constructor accepts a [Web3] handle and an [Address] only, and
    every request of a client it built is addressed as the constructor was
    told: the request carries that handle, that address, the abi of the
    instantiated class and the binding that [_get_contract] returned for
    exactly these three. *)
Theorem X10_requests_carry_what_the_constructor_was_given
  {collab : Collaborators} {loader : Loader}
  c web3 address self name args cs tx :
  __init__ c web3 address = Ok self ->
  mutating name = true ->
  fst (invoke name args (mkWorld self cs)) = Ok (OTransact tx) ->
  exists h a,
    web3 = AWeb3 h /\ address = VAddress a /\
    Transact.web3 tx = h /\
    Transact.address tx = a /\
    Transact.abi tx = class_abi c /\
    _get_contract h (class_abi c) a = Returned (Transact.contract tx).
Proof.
  intros Hi Hm Hok.
  destruct (invoke_mutating_Ok _ _ _ _ Hm Hok) as (tys & _ & _ & [= ->]).
  unfold __init__ in Hi.
  destruct web3 as [h|v]; [|discriminate Hi].
  destruct address as [| | | | a |]; try discriminate Hi.
  destruct (_get_contract h (class_abi c) a) as [b|why] eqn:Hb;
    [|discriminate Hi].
  injection Hi as <-. exists h, a. repeat split. exact Hb.
Qed.

Lemma X10_requests_carry_what_the_constructor_was_given_witness :
  exists self,
    __init__ (loader := loader_of (ledger 1000 0 300 3600 []))
      Flopper_class (AWeb3 (HTTPProvider "http://localhost:8555"))
      (VAddress (mkAddress alice)) = Ok self /\
    Transact.address (request self "deal" [VInt 1]) = mkAddress alice.
Proof.
  eexists. split; [reflexivity|].
  destruct (X10_requests_carry_what_the_constructor_was_given
              (collab := plain)
              (loader := loader_of (ledger 1000 0 300 3600 []))
              Flopper_class (AWeb3 (HTTPProvider "http://localhost:8555"))
              (VAddress (mkAddress alice)) _ "deal" [VInt 1] []
              _ eq_refl eq_refl eq_refl)
    as (h & a & _ & Ha & _ & Hx & _).
  injection Ha as <-. exact Hx.
Defined.

(** * Properties of [Deployment]

    What [reset] promises, "rollbacks all changes made since the initial
    deployment", rests on how the node treats snapshots.  The three
    hypotheses below say what is assumed of it: a snapshot keeps the
    present content under the id it returns, a revert to a kept id brings
    that content back, and moving the clock keeps the snapshots. *)

Section SnapshotDiscipline.
Variables Chain Client Data : Type.
Variable request_blocking :
  string -> list PyVal -> Chain -> Reply PyVal * Chain.
(** What the contracts on the chain hold, the clock included. *)
Variable content : Chain -> Data.
(** The content the node keeps under a snapshot id. *)
Variable kept : Chain -> PyVal -> option Data.

Hypothesis snapshot_keeps :
  forall c, exists id c',
    request_blocking "evm_snapshot" [] c = (Returned id, c') /\
    content c' = content c /\
    kept c' id = Some (content c).
Hypothesis revert_restores :
  forall c id d,
    kept c id = Some d ->
    exists r c',
      request_blocking "evm_revert" [id] c = (Returned r, c') /\
      content c' = d.
Hypothesis travel_keeps :
  forall c n, exists r c',
    request_blocking "evm_increaseTime" [VInt n] c = (Returned r, c') /\
    forall id, kept c' id = kept c id.

Lemma reset_keeps_anchor self c d :
  kept c (Deployment.snapshot_id Client self) = Some d ->
  exists self' c',
    Deployment.reset Chain Client request_blocking self c
      = (Ok tt, self', c') /\
    content c' = d /\
    kept c' (Deployment.snapshot_id Client self') = Some d /\
    Deployment.set_snapshot_id Client self
      (Deployment.snapshot_id Client self') = self'.
Proof.
  intros Hk.
  destruct (revert_restores c _ d Hk) as (r & c1 & Hr & Hc1).
  destruct (snapshot_keeps c1) as (id & c2 & Hs & Hc2 & Hk2).
  exists (Deployment.set_snapshot_id Client self id), c2.
  unfold Deployment.reset. rewrite Hr, Hs.
  repeat split; simpl; congruence.
Qed.

Lemma step_keeps_anchor s self c d :
  kept c (Deployment.snapshot_id Client self) = Some d ->
  exists self' c',
    Deployment.step Chain Client request_blocking s self c
      = (Ok tt, self', c') /\
    kept c' (Deployment.snapshot_id Client self') = Some d.
Proof.
  intros Hk. destruct s as [n|]; simpl.
  - destruct (travel_keeps c n) as (r & c1 & Hr & Hkept).
    exists self, c1. unfold Deployment.time_travel_by. rewrite Hr.
    split; [reflexivity|]. rewrite Hkept. exact Hk.
  - destruct (reset_keeps_anchor self c d Hk)
      as (self' & c' & H & _ & Ha & _).
    exists self', c'. auto.
Qed.

Lemma session_keeps_anchor steps : forall self c d,
  kept c (Deployment.snapshot_id Client self) = Some d ->
  exists self' c',
    Deployment.session Chain Client request_blocking steps self c
      = (Ok tt, self', c') /\
    kept c' (Deployment.snapshot_id Client self') = Some d.
Proof.
  induction steps as [|s steps IH]; intros self c d Hk.
  - exists self, c. split; [reflexivity | exact Hk].
  - destruct (step_keeps_anchor s self c d Hk) as (self1 & c1 & Hs & Hk1).
    destruct (IH self1 c1 d Hk1) as (self2 & c2 & Hr & Hk2).
    exists self2, c2. simpl. rewrite Hs. auto.
Qed.

Lemma session_app steps1 steps2 self c self1 c1 :
  Deployment.session Chain Client request_blocking steps1 self c
    = (Ok tt, self1, c1) ->
  Deployment.session Chain Client request_blocking (steps1 ++ steps2) self c
    = Deployment.session Chain Client request_blocking steps2 self1 c1.
Proof.
  revert self c. induction steps1 as [|s steps1 IH]; intros self c; simpl.
  - intros [= <- <-]. reflexivity.
  - destruct (Deployment.step Chain Client request_blocking s self c)
      as [[[u|e] self'] c']; [destruct u; apply IH | discriminate].
Qed.

(** X11: if the snapshot the object remembers holds the content [d], then
    [reset] succeeds, the chain holds [d] again, and the object remembers
    a new snapshot that holds [d] as well; no other attribute of the
    object changes. *)
Theorem X11_reset_restores_the_snapshot self c d :
  kept c (Deployment.snapshot_id Client self) = Some d ->
  exists self' c',
    Deployment.reset Chain Client request_blocking self c
      = (Ok tt, self', c') /\
    content c' = d /\
    kept c' (Deployment.snapshot_id Client self') = Some d /\
    Deployment.set_snapshot_id Client self
      (Deployment.snapshot_id Client self') = self'.
Proof. apply reset_keeps_anchor. Qed.

(** X12: [reset] can be repeated.  After any session of time travels and
    resets that starts from a remembered snapshot of [d], one more [reset]
    succeeds and brings the chain back to [d], and the object again
    remembers a snapshot of [d]. *)
Theorem X12_reset_restores_after_any_session steps self c d :
  kept c (Deployment.snapshot_id Client self) = Some d ->
  exists self' c',
    Deployment.session Chain Client request_blocking
      (steps ++ [Deployment.Reset]) self c = (Ok tt, self', c') /\
    content c' = d /\
    kept c' (Deployment.snapshot_id Client self') = Some d.
Proof.
  intros Hk.
  destruct (session_keeps_anchor steps self c d Hk)
    as (self1 & c1 & Hs & Hk1).
  destruct (reset_keeps_anchor self1 c1 d Hk1)
    as (self2 & c2 & Hr & Hc & Hk2 & _).
  exists self2, c2. rewrite (session_app _ _ _ _ _ _ Hs). simpl.
  rewrite Hr. auto.
Qed.

End SnapshotDiscipline.

(** The clock node honours the three hypotheses. *)
Lemma clock_snapshot_keeps c :
  exists id c',
    Deployment.clock_node "evm_snapshot" [] c = (Returned id, c') /\
    Deployment.now c' = Deployment.now c /\
    Deployment.clock_kept c' id = Some (Deployment.now c).
Proof.
  eexists _, _. split; [reflexivity|]. split; [reflexivity|].
  simpl. rewrite Z.eqb_refl. reflexivity.
Qed.

Lemma clock_revert_restores c id d :
  Deployment.clock_kept c id = Some d ->
  exists r c',
    Deployment.clock_node "evm_revert" [id] c = (Returned r, c') /\
    Deployment.now c' = d.
Proof.
  destruct id as [| k | | | |]; try discriminate. simpl. intros Hk.
  unfold Deployment.clock_node; simpl. rewrite Hk.
  eexists _, _. split; reflexivity.
Qed.

Lemma clock_travel_keeps c n :
  exists r c',
    Deployment.clock_node "evm_increaseTime" [VInt n] c = (Returned r, c') /\
    forall id, Deployment.clock_kept c' id = Deployment.clock_kept c id.
Proof. eexists _, _. split; reflexivity. Qed.

Lemma X11_reset_restores_the_snapshot_witness :
  Deployment.clock_kept (Deployment.mkClock 1570 [(0, 1000)] 1)
    (Deployment.snapshot_id unit Deployment.clock_deployment) = Some 1000 /\
  exists self' c',
    Deployment.reset Deployment.Clock unit Deployment.clock_node
      Deployment.clock_deployment (Deployment.mkClock 1570 [(0, 1000)] 1)
      = (Ok tt, self', c') /\
    Deployment.now c' = 1000 /\
    Deployment.clock_kept c' (Deployment.snapshot_id unit self') = Some 1000 /\
    Deployment.set_snapshot_id unit Deployment.clock_deployment
      (Deployment.snapshot_id unit self') = self'.
Proof.
  split; [reflexivity|].
  exact (X11_reset_restores_the_snapshot Deployment.Clock unit Z
           Deployment.clock_node Deployment.now Deployment.clock_kept
           clock_snapshot_keeps clock_revert_restores
           Deployment.clock_deployment
           (Deployment.mkClock 1570 [(0, 1000)] 1) 1000 eq_refl).
Defined.

Lemma X12_reset_restores_after_any_session_witness :
  exists self' c',
    Deployment.session Deployment.Clock unit Deployment.clock_node
      ([Deployment.Travel 500; Deployment.Reset; Deployment.Travel 70]
         ++ [Deployment.Reset])
      Deployment.clock_deployment Deployment.clock_start
      = (Ok tt, self', c') /\
    Deployment.now c' = 1000 /\
    Deployment.clock_kept c' (Deployment.snapshot_id unit self') = Some 1000.
Proof.
  exact (X12_reset_restores_after_any_session Deployment.Clock unit Z
           Deployment.clock_node Deployment.now Deployment.clock_kept
           clock_snapshot_keeps clock_revert_restores clock_travel_keeps
           [Deployment.Travel 500; Deployment.Reset; Deployment.Travel 70]
           Deployment.clock_deployment Deployment.clock_start 1000 eq_refl).
Defined.

(** * Further properties of the clients, continued *)

Section Capabilities.
Context {collab : Collaborators}.

(** X13: which bids a variant can prepare.  The collateral client defines
    both [tend] and [dent], the surplus client [tend] only and the debt
    client [dent] only; calling the missing one raises [AttributeError]
    whatever the arguments, builds no request and makes no contract
    call. *)
Theorem X13_missing_bid_direction_raises_AttributeError h a b cs args :
  map (fun c => (exposes c "tend", exposes c "dent"))
    [Flipper_class; Flapper_class; Flopper_class] =
    [(true, true); (true, false); (false, true)] /\
  invoke "dent" args (mkWorld (Contract.mk Flapper_class h a b) cs) =
    (Raise AttributeError, mkWorld (Contract.mk Flapper_class h a b) cs) /\
  invoke "tend" args (mkWorld (Contract.mk Flopper_class h a b) cs) =
    (Raise AttributeError, mkWorld (Contract.mk Flopper_class h a b) cs).
Proof. repeat split. Qed.

(** X14: the numeric reads hand back the ledger's own number.  When the
    contract replies with an [int], [ttl], [tau] and [kicks] return that
    [int], whatever the conversions of other values do; [era] returns the
    reply as it is, whatever its type. *)
Theorem X14_numeric_reads_return_the_reply name w v :
  In name ["era"; "ttl"; "tau"; "kicks"] ->
  exposes (Contract.klass (this w)) name = true ->
  Contract._contract (this w) name [] = Returned v ->
  (name = "era" \/ exists n, v = VInt n) ->
  fst (invoke name [] w) = Ok (OVal v).
Proof.
  intros Hin Hex Hr Hv. simpl in Hin.
  destruct Hin as [<- | [<- | [<- | [<- | []]]]].
  all: unfold invoke, bind, get_self;
    destruct (Contract.klass (this w)); try discriminate Hex.
  all: open_invoke; rewrite Hr; try reflexivity.
  all: destruct Hv as [Hv | [n ->]]; [discriminate Hv | reflexivity].
Qed.

End Capabilities.

Lemma X14_numeric_reads_return_the_reply_witness :
  fst (invoke (collab := plain) "kicks" [] expired_surplus) =
    Ok (OVal (VInt 1)).
Proof.
  apply (X14_numeric_reads_return_the_reply (collab := plain) "kicks"
           expired_surplus (VInt 1)).
  - simpl; tauto.
  - reflexivity.
  - reflexivity.
  - right. exists 1. reflexivity.
Defined.
